(** * CSV to JSON conversion pipeline: a shallow embedding

    The development follows the layout of the Python sources:
    - [SchemaReader]     src/readers/schema_reader.py
    - [Pandas]           the part of the data-frame library the sources call
    - [CsvReader]        src/readers/csv_reader.py
    - [DataValidator]    src/processors/data_validator.py
    - [DataTransformer]  src/processors/data_transformer.py
    - [JsonWriter]       src/writers/json_writer.py
    - [Main]             src/main.py

    What the data-frame library computes from text and numbers (integer and
    float literals, the index of a file with overlong lines, the common
    dtype of a row, a mean) is a parameter of the development, the record
    [Pandas.Library]; what the sources decide (arguments, guards, loops,
    the order of checks) is written out.

    Python dictionaries are insertion-ordered association lists ([dict]);
    exceptions are the [Raise] branch of [result]; objects with mutable
    attributes ([validation_results], [transformation_stats], [write_stats])
    are threaded explicitly.  Wall-clock fields (timestamps, durations, file
    sizes) are left out of the records.  Strings are sequences of code
    points below 256; paths are POSIX paths. *)

From Stdlib Require Import ZArith List String Ascii Bool Arith Lia.
From Stdlib Require Import DecimalString PrimFloat Uint63.
From Stdlib Require Import Permutation Sorted.
Import ListNotations.

Local Open Scope string_scope.
Local Open Scope list_scope.

(* ================================================================== *)
(** ** Python strings and dictionaries *)

Module Py.

(** [s.startswith(p)] *)
Definition startswith (s p : string) : bool := String.prefix p s.

(** [s.endswith(p)] *)
Definition endswith (s p : string) : bool :=
  let n := String.length s in
  let m := String.length p in
  (m <=? n)%nat && String.eqb (substring (n - m) m s) p.

(** [str(n)] for a non-negative count. *)
Definition str_of_nat (n : nat) : string :=
  NilZero.string_of_uint (Nat.to_uint n).

(** [sep.join(l)] *)
Fixpoint join (sep : string) (l : list string) : string :=
  match l with
  | [] => EmptyString
  | [x] => x
  | x :: r => x ++ sep ++ join sep r
  end.

(** [c in s] for a character. *)
Fixpoint contains (c : ascii) (s : string) : bool :=
  match s with
  | EmptyString => false
  | String c' r => Ascii.eqb c' c || contains c r
  end.

(** [str.isprintable] on a code point below 256. *)
Definition printable (c : ascii) : bool :=
  let n := nat_of_ascii c in
  ((32 <=? n)%nat && (n <? 127)%nat)
  || ((161 <=? n)%nat && negb (n =? 173)%nat).

Definition hex_digit (n : nat) : ascii :=
  nth n ["0"; "1"; "2"; "3"; "4"; "5"; "6"; "7"; "8"; "9";
         "a"; "b"; "c"; "d"; "e"; "f"]%char "0"%char.

(** What [repr] writes for one character inside the quotes [quote]. *)
Definition repr_char (quote c : ascii) : string :=
  let n := nat_of_ascii c in
  if Ascii.eqb c quote || Ascii.eqb c "\"%char then
    String "\"%char (String c EmptyString)
  else if (n =? 9)%nat then "\t"
  else if (n =? 10)%nat then "\n"
  else if (n =? 13)%nat then "\r"
  else if printable c then String c EmptyString
  else String "\"%char
         (String "x"%char
            (String (hex_digit (n / 16))
               (String (hex_digit (n mod 16)) EmptyString))).

Fixpoint repr_body (quote : ascii) (s : string) : string :=
  match s with
  | EmptyString => EmptyString
  | String c r => repr_char quote c ++ repr_body quote r
  end.

(** [repr(s)]: single quotes, unless the string holds a single quote and
    no double quote; the quote in use, the backslash and the characters
    that do not print are escaped.  [repr] of a list of strings follows. *)
Definition repr_str (s : string) : string :=
  let quote :=
    if contains "'"%char s && negb (contains (ascii_of_nat 34) s)
    then ascii_of_nat 34 else "'"%char in
  String quote (repr_body quote s ++ String quote EmptyString).
Definition repr_list (l : list string) : string :=
  "[" ++ join ", " (map repr_str l) ++ "]".

(** [s.split(sep)] for a one-character separator. *)
Fixpoint split (sep : ascii) (s : string) : list string :=
  match s with
  | EmptyString => [EmptyString]
  | String c r =>
      if Ascii.eqb c sep then EmptyString :: split sep r
      else match split sep r with
           | [] => [String c EmptyString]
           | x :: xs => String c x :: xs
           end
  end.

(** The root of a POSIX path: [//] for exactly two leading slashes, [/]
    for one or for three and more, none for a relative path. *)
Definition path_root (s : string) : string :=
  if String.prefix "//" s && negb (String.prefix "///" s) then "//"
  else if String.prefix "/" s then "/"
  else EmptyString.

(** The components of a path: empty ones and [.] are dropped. *)
Definition path_parts (s : string) : list string :=
  filter (fun x => negb (String.eqb x EmptyString) && negb (String.eqb x "."))
    (split "/"%char s).

(** [str(Path(base) / name)]: an absolute [name] replaces [base]; the
    empty path prints as a dot. *)
Definition path_join (base name : string) : string :=
  let '(root, parts) :=
    if String.eqb (path_root name) EmptyString
    then (path_root base, path_parts base ++ path_parts name)
    else (path_root name, path_parts name) in
  match parts with
  | [] => if String.eqb root EmptyString then "." else root
  | _ => root ++ join "/" parts
  end.

(** Truth value of a list: [if l:]. *)
Definition truthy {A} (l : list A) : bool :=
  match l with [] => false | _ => true end.

(** [x in l] for strings. *)
Definition mem (x : string) (l : list string) : bool :=
  existsb (String.eqb x) l.

Section Dict.
Context {V : Type}.

(** A [dict] with string keys: items in insertion order. *)
Definition dict : Type := list (string * V).

Fixpoint dict_get (k : string) (d : dict) : option V :=
  match d with
  | [] => None
  | (k', v) :: r => if String.eqb k' k then Some v else dict_get k r
  end.

(** [d[k] = v]: an existing key keeps its place, a new one goes last. *)
Fixpoint dict_set (k : string) (v : V) (d : dict) : dict :=
  match d with
  | [] => [(k, v)]
  | (k', v') :: r =>
      if String.eqb k' k then (k, v) :: r else (k', v') :: dict_set k v r
  end.

Definition dict_keys (d : dict) : list string := map fst d.
Definition dict_values (d : dict) : list V := map snd d.
Definition dict_mem (k : string) (d : dict) : bool := mem k (dict_keys d).

(** The invariant of a real dictionary: no key twice. *)
Definition dict_ok (d : dict) : Prop := NoDup (dict_keys d).
End Dict.
Arguments dict V : clear implicits.

(** Exceptions the sources raise or let through. *)
Inductive exn : Type :=
| KeyError (msg : string)
| ValueError (msg : string)
| FileNotFoundError (msg : string)
| EmptyDataError
| ParserError
| OSError (msg : string).

Inductive result (A : Type) : Type :=
| Ok (a : A)
| Raise (e : exn).
Arguments Ok {A} a.
Arguments Raise {A} e.

Definition bind {A B} (m : result A) (k : A -> result B) : result B :=
  match m with
  | Ok a => k a
  | Raise e => Raise e
  end.

(** [str(e)]; a [KeyError] prints the repr of its argument. *)
Definition str_of_exn (e : exn) : string :=
  match e with
  | KeyError m => repr_str m
  | ValueError m => m
  | FileNotFoundError m => m
  | EmptyDataError => "No columns to parse from file"
  | ParserError => "Error tokenizing data"
  | OSError m => m
  end.

End Py.
Import Py.

Declare Scope result_scope.
Delimit Scope result_scope with result.
Notation "x <- m ;; k" := (bind m (fun x => k))
  (at level 61, m at next level, right associativity) : result_scope.
Notation "m ;;; k" := (bind m (fun _ => k))
  (at level 61, right associativity) : result_scope.

(** [mapM] in [result]: the first exception stops the loop. *)
Fixpoint mapM {A B} (f : A -> result B) (l : list A) : result (list B) :=
  match l with
  | [] => Ok []
  | a :: r =>
      match f a with
      | Raise e => Raise e
      | Ok b => match mapM f r with
                | Raise e => Raise e
                | Ok bs => Ok (b :: bs)
                end
      end
  end.

(* ================================================================== *)
(** ** src/readers/schema_reader.py *)

Module SchemaReader.

(** One entry of [columns] in schemas.yaml; every key may be absent. *)
Record ColumnConfig : Type := {
  cc_type : option string;
  cc_position : option Z;
  cc_required : option bool
}.

(** One entry of [tables]; the [columns] key may be absent. *)
Record TableSchema : Type := {
  ts_columns : option (dict ColumnConfig)
}.

(** [schemas.get('tables', {})], as [load_all_schemas] caches it. *)
Definition Schemas : Type := dict TableSchema.

Definition get_table_schema (schemas : Schemas) (table_name : string)
  : result TableSchema :=
  match dict_get table_name schemas with
  | Some s => Ok s
  | None => Raise (KeyError ("Schema not found for table: " ++ table_name))
  end.

(** [schema.get('columns', {})] *)
Definition columns_of (schema : TableSchema) : dict ColumnConfig :=
  match ts_columns schema with
  | Some c => c
  | None => []
  end.

Definition pandas_dtype_of (col_config : ColumnConfig) : string :=
  let col_type := match cc_type col_config with
                  | Some t => t
                  | None => "string"
                  end in
  if String.eqb col_type "int64" then "Int64"
  else if String.eqb col_type "float64" then "float64"
  else if String.eqb col_type "string" then "string"
  else "string".

Definition get_pandas_dtypes (schemas : Schemas) (table_name : string)
  : result (dict string) :=
  (schema <- get_table_schema schemas table_name ;;
   Ok (fold_left
         (fun dtypes '(col_name, col_config) =>
            dict_set col_name (pandas_dtype_of col_config) dtypes)
         (columns_of schema) []))%result.

Definition position_of (item : string * ColumnConfig) : Z :=
  match cc_position (snd item) with
  | Some p => p
  | None => 0%Z
  end.

(** [sorted(items, key=position)]: a stable insertion sort. *)
Fixpoint insert_by_position (x : string * ColumnConfig)
  (l : list (string * ColumnConfig)) : list (string * ColumnConfig) :=
  match l with
  | [] => [x]
  | y :: r =>
      if (position_of x <=? position_of y)%Z then x :: l
      else y :: insert_by_position x r
  end.

Definition sorted_by_position (l : list (string * ColumnConfig))
  : list (string * ColumnConfig) :=
  fold_right insert_by_position [] l.

Definition get_column_names (schemas : Schemas) (table_name : string)
  : result (list string) :=
  (schema <- get_table_schema schemas table_name ;;
   Ok (map fst (sorted_by_position (columns_of schema))))%result.

Definition is_required (col_config : ColumnConfig) : bool :=
  match cc_required col_config with
  | Some b => b
  | None => false
  end.

Definition get_required_columns (schemas : Schemas) (table_name : string)
  : result (list string) :=
  (schema <- get_table_schema schemas table_name ;;
   Ok (map fst (filter (fun item => is_required (snd item))
                  (columns_of schema))))%result.

Definition validate_schema (schemas : Schemas) (table_name : string)
  : result bool :=
  (schema <- get_table_schema schemas table_name ;;
   match ts_columns schema with
   | None => Raise (ValueError ("No columns defined for table " ++ table_name))
   | Some [] =>
       Raise (ValueError ("Empty columns configuration for table " ++ table_name))
   | Some columns =>
       mapM (fun '(col_name, col_config) =>
               match cc_type col_config, cc_position col_config with
               | None, _ =>
                   Raise (ValueError ("Missing type for column " ++ col_name
                                      ++ " in table " ++ table_name))
               | Some _, None =>
                   Raise (ValueError ("Missing position for column " ++ col_name
                                      ++ " in table " ++ table_name))
               | Some _, Some _ => Ok tt
               end) columns ;;;
       Ok true
   end)%result.

Definition get_available_tables (schemas : Schemas) : list string :=
  dict_keys schemas.

End SchemaReader.

(* ================================================================== *)
(** ** The data-frame operations used by the sources *)

Module Pandas.

(** A cell.  The library has three missing markers: [pd.NA] (nullable
    integer and string columns), the float NaN (float columns) and Python's
    [None] (object columns). *)
Inductive value : Type :=
| NA
| PyNone
| VInt (z : Z)
| VFloat (f : float)
| VStr (s : string).

(** [pd.isna(v)] *)
Definition isna (v : value) : bool :=
  match v with
  | NA | PyNone => true
  | VFloat f => PrimFloat.is_nan f
  | VInt _ | VStr _ => false
  end.

Definition notna (v : value) : bool := negb (isna v).

(** A column: [str(dtype)] is kept as the string the sources compare. *)
Record Series : Type := {
  name : string;
  dtype : string;
  values : list value
}.

(** A frame: its columns in order and the length of its index. *)
Record DataFrame : Type := {
  columns : list Series;
  index : nat
}.

(** What the data-frame library makes of text and of numbers is its own;
    the sources only hand it their arguments.
    - [to_int64 column tok]: the integer the reader stores for the token
      [tok] of a column read with [dtype=Int64], whose tokens are [column]
      (the conversion, [to_numeric] and a safe cast, sees the whole column),
      or the exception it raises;
    - [to_float64 tok]: the double the tokenizer reads in [tok], or the
      exception it raises;
    - [leading_fields records width]: for a file that holds a line of more
      than [width] fields, where the reader takes leading fields as the
      index or refuses a line, the fields it leaves for the [width] named
      columns, record by record, or the exception;
    - [row_cast df col v]: the value [df.iterrows()] yields for a present
      cell [v] of column [col]: a row comes as a Series of one dtype, so
      that an integer may come as a float;
    - [mean_of vs]: the mean of the cells [vs], as the library rounds it. *)
Record Library : Type := {
  to_int64 : list string -> string -> Py.result Z;
  to_float64 : string -> Py.result float;
  leading_fields : list (list string) -> nat -> Py.result (list (list string));
  row_cast : DataFrame -> Series -> value -> value;
  mean_of : list value -> float
}.

(** [len(df)] *)
Definition len (df : DataFrame) : nat := index df.

(** [list(df.columns)] *)
Definition column_names (df : DataFrame) : list string :=
  map name (columns df).

(** [df[col_name]] *)
Definition get_col (df : DataFrame) (col_name : string) : option Series :=
  find (fun c => String.eqb (name c) col_name) (columns df).

(** Column labels are unique and every column is as long as the index. *)
Definition wf_frame (df : DataFrame) : Prop :=
  NoDup (column_names df) /\
  Forall (fun c => List.length (values c) = index df) (columns df).

(** The scalar type behind a dtype; [select_dtypes] compares these, so
    that [int64] and [Int64] select the same columns. *)
Inductive scalar_type : Type :=
| np_int64 | np_float64 | np_float32 | py_str | np_object.

Definition scalar_type_eqb (a b : scalar_type) : bool :=
  match a, b with
  | np_int64, np_int64 | np_float64, np_float64 | np_float32, np_float32
  | py_str, py_str | np_object, np_object => true
  | _, _ => false
  end.

Definition scalar_type_of (dt : string) : option scalar_type :=
  if String.eqb dt "int64" || String.eqb dt "Int64" then Some np_int64
  else if String.eqb dt "float64" || String.eqb dt "Float64" then Some np_float64
  else if String.eqb dt "float32" then Some np_float32
  else if String.eqb dt "string" then Some py_str
  else if String.eqb dt "object" then Some np_object
  else None.

Definition selected (include : list string) (c : Series) : bool :=
  existsb (fun d => match scalar_type_of d, scalar_type_of (dtype c) with
                    | Some a, Some b => scalar_type_eqb a b
                    | _, _ => false
                    end) include.

(** [df.select_dtypes(include=...)], as the selected columns. *)
Definition select_dtypes (include : list string) (df : DataFrame)
  : list Series :=
  filter (selected include) (columns df).

(** [s.isnull().sum()] *)
Definition null_count (s : Series) : nat :=
  List.length (filter isna (values s)).

(** [s.isna().all()] *)
Definition all_na (s : Series) : bool := forallb isna (values s).

(** [v < 0] on a cell; a missing cell compares false. *)
Definition is_negative (v : value) : bool :=
  match v with
  | VInt z => (z <? 0)%Z
  | VFloat f => PrimFloat.ltb f PrimFloat.zero
  | _ => false
  end.

(** [(s < 0).sum()] *)
Definition negative_count (s : Series) : nat :=
  List.length (filter is_negative (values s)).

(** [v == ''] on a cell. *)
Definition is_empty_string (v : value) : bool :=
  match v with
  | VStr s => String.eqb s EmptyString
  | _ => false
  end.

(** [(s == '').sum()] *)
Definition empty_string_count (s : Series) : nat :=
  List.length (filter is_empty_string (values s)).

(** The missing marker a column of this dtype stores. *)
Definition na_of (dt : string) : value :=
  match scalar_type_of dt with
  | Some np_float64 | Some np_float32 => VFloat PrimFloat.nan
  | Some np_object => PyNone
  | _ => NA
  end.

(** Cells that are not missing: reductions skip the others. *)
Definition present (s : Series) : list value := filter notna (values s).

(** [a < b] on two cells of one column. *)
Definition value_ltb (a b : value) : bool :=
  match a, b with
  | VInt x, VInt y => (x <? y)%Z
  | VFloat x, VFloat y => PrimFloat.ltb x y
  | _, _ => false
  end.

(** [s.min()], [s.max()]: over the cells present, missing if there are none. *)
Definition series_min (s : Series) : value :=
  match present s with
  | [] => na_of (dtype s)
  | v :: r => fold_left (fun m x => if value_ltb x m then x else m) r v
  end.

Definition series_max (s : Series) : value :=
  match present s with
  | [] => na_of (dtype s)
  | v :: r => fold_left (fun m x => if value_ltb m x then x else m) r v
  end.

(** [s.mean()]: the library's mean of the cells present, NaN if there are
    none. *)
Definition series_mean (lib : Library) (s : Series) : value :=
  match present s with
  | [] => VFloat PrimFloat.nan
  | vs => VFloat (mean_of lib vs)
  end.

(** [s.where(cond, None)]: a cell failing [cond] becomes missing. *)
Definition where_ (cond : value -> bool) (s : Series) : Series :=
  {| name := name s; dtype := dtype s;
     values := map (fun v => if cond v then v else na_of (dtype s))
                 (values s) |}.

(** [v != ''] as [where] reads it: a [pd.NA] answer counts as false. *)
Definition ne_empty (v : value) : bool :=
  match v with
  | VStr s => negb (String.eqb s EmptyString)
  | NA => false
  | _ => true
  end.

End Pandas.
Import Pandas.

(* ================================================================== *)
(** ** src/readers/csv_reader.py *)

Module CsvReader.

(** [na_values] of the [read_csv] call. *)
Definition na_values : list string := [EmptyString; "NULL"; "null"; "None"].

(** The library's default missing tokens ([keep_default_na=True]). *)
Definition default_na_values : list string :=
  ["-1.#IND"; "1.#QNAN"; "1.#IND"; "-1.#QNAN"; "#N/A N/A"; "#N/A"; "N/A";
   "n/a"; "NA"; "<NA>"; "#NA"; "NULL"; "null"; "NaN"; "-NaN"; "nan"; "-nan";
   "None"; EmptyString].

Definition is_na_token (tok : string) : bool :=
  mem tok (na_values ++ default_na_values).

(** A space or a tab. *)
Definition is_blank (c : ascii) : bool :=
  Ascii.eqb c " "%char || Ascii.eqb c (ascii_of_nat 9).

Fixpoint all_blank (s : string) : bool :=
  match s with
  | EmptyString => true
  | String c r => is_blank c && all_blank r
  end.

(** A line the tokenizer skips ([skip_blank_lines] is left at its default):
    it has no field, or one field of spaces and tabs only. *)
Definition blank_line (line : list string) : bool :=
  match line with
  | [] => true
  | [s] => all_blank s
  | _ => false
  end.

(** The records of a file: its lines without the blank ones. *)
Definition records (rows : list (list string)) : list (list string) :=
  filter (fun line => negb (blank_line line)) rows.

(** Field [j] of a line; a short line is filled with missing cells. *)
Definition field (j : nat) (line : list string) : string :=
  nth j line EmptyString.

Fixpoint NoDup_b (l : list string) : bool :=
  match l with
  | [] => true
  | x :: r => negb (mem x r) && NoDup_b r
  end.

Section Reader.
Variable lib : Library.

(** The fields of the named columns, record by record: the records as they
    are when none is longer than the names, else what the library leaves
    after taking its index. *)
Definition data_fields (rows : list (list string)) (width : nat)
  : result (list (list string)) :=
  let recs := records rows in
  if existsb (fun line => (width <? List.length line)%nat) recs
  then leading_fields lib recs width
  else Ok recs.

(** One cell of [read_csv] under [dtype=dtypes] and the missing tokens;
    [column] holds the tokens of the cell's column. *)
Definition convert_cell (dt : string) (column : list string) (tok : string)
  : result value :=
  if is_na_token tok then Ok (na_of dt)
  else if String.eqb dt "Int64" then
    (z <- to_int64 lib column tok ;; Ok (VInt z))%result
  else if String.eqb dt "float64" then
    (f <- to_float64 lib tok ;; Ok (VFloat f))%result
  else Ok (VStr tok).

Definition read_column (table : list (list string)) (dtypes : dict string)
  (j : nat) (col_name : string) : result Series :=
  let dt := match dict_get col_name dtypes with
            | Some dt => dt
            | None => "object"
            end in
  let column := map (field j) table in
  (vs <- mapM (convert_cell dt column) column ;;
   Ok {| name := col_name; dtype := dt; values := vs |})%result.

(** [pd.read_csv(file, header=None, names=..., dtype=..., na_values=...,
    keep_default_na=True)] on the lines of the file, each split at the
    commas (the files hold no quoted field).  A file without records gives
    a frame without rows. *)
Definition read_csv (rows : list (list string)) (names : list string)
  (dtypes : dict string) : result DataFrame :=
  if negb (NoDup_b names) then
    Raise (ValueError "Duplicate names are not allowed.")
  else
    (table <- data_fields rows (List.length names) ;;
     cols <- mapM (fun '(j, col_name) =>
                     read_column table dtypes j col_name)
               (combine (seq 0 (List.length names)) names) ;;
     Ok {| columns := cols; index := List.length table |})%result.

(** The files of the record source: the lines of each table's file, or
    [None] where the file does not exist. *)
Definition Files : Type := string -> option (list (list string)).

Definition read_csv_file (schemas : SchemaReader.Schemas) (files : Files)
  (table_name : string) : result DataFrame :=
  (SchemaReader.validate_schema schemas table_name ;;;
   match files table_name with
   | None => Raise (FileNotFoundError ("CSV file not found: " ++ table_name))
   | Some rows =>
       dtypes <- SchemaReader.get_pandas_dtypes schemas table_name ;;
       column_names <- SchemaReader.get_column_names schemas table_name ;;
       read_csv rows column_names dtypes
   end)%result.

(** [read_all_tables]: a table whose read raises is skipped. *)
Definition read_all_tables (schemas : SchemaReader.Schemas) (files : Files)
  : dict DataFrame :=
  fold_left
    (fun all_data table_name =>
       match read_csv_file schemas files table_name with
       | Ok df => dict_set table_name df all_data
       | Raise _ => all_data
       end)
    (SchemaReader.get_available_tables schemas) [].
End Reader.

End CsvReader.

(* ================================================================== *)
(** ** src/processors/data_validator.py *)

Module DataValidator.

(** The [results] dictionary of [validate_dataframe].  The score is a
    Python float whose value is always an integer ([100.0] minus integer
    penalties, far below 2^53, where doubles are exact); it is kept in [Z]. *)
Record Results : Type := {
  table_name : string;
  total_rows : nat;
  valid_rows : nat;
  issues : list string;
  warnings : list string;
  errors : list string;
  data_quality_score : Z
}.

(** [results['errors'].append(msg)] and its two siblings. *)
Definition append_error (msg : string) (r : Results) : Results :=
  {| table_name := table_name r; total_rows := total_rows r;
     valid_rows := valid_rows r; issues := issues r;
     warnings := warnings r; errors := errors r ++ [msg];
     data_quality_score := data_quality_score r |}.

Definition append_warning (msg : string) (r : Results) : Results :=
  {| table_name := table_name r; total_rows := total_rows r;
     valid_rows := valid_rows r; issues := issues r;
     warnings := warnings r ++ [msg]; errors := errors r;
     data_quality_score := data_quality_score r |}.

Definition append_issue (msg : string) (r : Results) : Results :=
  {| table_name := table_name r; total_rows := total_rows r;
     valid_rows := valid_rows r; issues := issues r ++ [msg];
     warnings := warnings r; errors := errors r;
     data_quality_score := data_quality_score r |}.

Definition set_score (s : Z) (r : Results) : Results :=
  {| table_name := table_name r; total_rows := total_rows r;
     valid_rows := valid_rows r; issues := issues r;
     warnings := warnings r; errors := errors r;
     data_quality_score := s |}.

Definition set_valid_rows (n : nat) (r : Results) : Results :=
  {| table_name := table_name r; total_rows := total_rows r;
     valid_rows := n; issues := issues r;
     warnings := warnings r; errors := errors r;
     data_quality_score := data_quality_score r |}.

(** The validator object: [self.validation_results]. *)
Record Validator : Type := {
  validation_results : dict Results
}.

(** [DataValidator()] *)
Definition init : Validator := {| validation_results := [] |}.

(** A check runs on the [results] it is handed and may raise; whatever it
    appended before raising stays in [results]. *)
Definition check (A : Type) : Type := Results -> result A * Results.

Definition ret {A} (a : A) : check A := fun r => (Ok a, r).

Definition lift {A} (m : result A) : check A := fun r => (m, r).

Definition modify (f : Results -> Results) : check unit :=
  fun r => (Ok tt, f r).

Definition read : check Results := fun r => (Ok r, r).

Definition cbind {A B} (m : check A) (k : A -> check B) : check B :=
  fun r => match m r with
           | (Ok a, r') => k a r'
           | (Raise e, r') => (Raise e, r')
           end.

Declare Scope check_scope.
Delimit Scope check_scope with check.
Notation "x <-- m ;; k" := (cbind m (fun x => k))
  (at level 61, m at next level, right associativity) : check_scope.
Notation "m ;;; k" := (cbind m (fun _ => k))
  (at level 61, right associativity) : check_scope.

Definition when (b : bool) (m : check unit) : check unit :=
  if b then m else ret tt.

(** [for x in l: body x] *)
Fixpoint for_each {A} (l : list A) (body : A -> check unit) : check unit :=
  match l with
  | [] => ret tt
  | x :: r => (body x ;;; for_each r body)%check
  end.

(** [set(l)], listed in order of first occurrence (Python lists a set in
    the order of its hashes; no statement below depends on the order in
    which missing or extra columns are named). *)
Fixpoint to_set (l : list string) : list string :=
  match l with
  | [] => []
  | x :: r => x :: filter (fun y => negb (String.eqb y x)) (to_set r)
  end.

(** [a - b] on sets. *)
Definition set_diff (a b : list string) : list string :=
  filter (fun x => negb (mem x b)) a.

Section Checks.
Variable schemas : SchemaReader.Schemas.

Definition _validate_required_columns (df : DataFrame) (tname : string)
  : check unit :=
  (names <-- lift (SchemaReader.get_column_names schemas tname) ;;
   let expected_columns := to_set names in
   let actual_columns := to_set (column_names df) in
   let missing_columns := set_diff expected_columns actual_columns in
   let extra_columns := set_diff actual_columns expected_columns in
   when (truthy missing_columns)
     (modify (append_error
                ("Missing required columns: " ++ repr_list missing_columns))) ;;;
   when (truthy extra_columns)
     (modify (append_warning
                ("Extra columns found: " ++ repr_list extra_columns))))%check.

Definition compatibility : dict (list string) :=
  [("Int64", ["int64"; "Int64"]);
   ("int64", ["int64"; "Int64"]);
   ("float64", ["float64"; "float32"]);
   ("string", ["string"; "object"])].

Definition _types_compatible (actual_type expected_type : string) : bool :=
  let expected_compatible :=
    match dict_get expected_type compatibility with
    | Some l => l
    | None => [expected_type]
    end in
  existsb (fun comp => startswith actual_type comp) expected_compatible.

Definition _validate_data_types (df : DataFrame) (tname : string)
  : check unit :=
  (expected_dtypes <-- lift (SchemaReader.get_pandas_dtypes schemas tname) ;;
   for_each expected_dtypes
     (fun '(col_name, expected_dtype) =>
        match get_col df col_name with
        | Some col =>
            let actual_dtype := dtype col in
            when (negb (_types_compatible actual_dtype expected_dtype))
              (modify (append_issue
                         ("Column " ++ col_name ++ ": expected "
                          ++ expected_dtype ++ ", got " ++ actual_dtype)))
        | None => ret tt
        end))%check.

Definition _validate_required_fields (df : DataFrame) (tname : string)
  : check unit :=
  (required_columns <--
     lift (SchemaReader.get_required_columns schemas tname) ;;
   for_each required_columns
     (fun col_name =>
        match get_col df col_name with
        | Some col =>
            let null_count := null_count col in
            when (0 <? null_count)%nat
              (modify (append_error
                         ("Column " ++ col_name ++ ": "
                          ++ str_of_nat null_count
                          ++ " null values in required field")))
        | None => ret tt
        end))%check.

Definition _validate_data_ranges (df : DataFrame) (tname : string)
  : check unit :=
  (let numeric_columns := select_dtypes ["int64"; "Int64"; "float64"] df in
   for_each numeric_columns
     (fun col =>
        let col_name := name col in
        if endswith col_name "_id" then
          let negative_ids := negative_count col in
          when (0 <? negative_ids)%nat
            (modify (append_issue
                       ("Column " ++ col_name ++ ": "
                        ++ str_of_nat negative_ids ++ " negative ID values")))
        else if endswith col_name "_price" || endswith col_name "_subtotal"
        then
          let negative_prices := negative_count col in
          when (0 <? negative_prices)%nat
            (modify (append_issue
                       ("Column " ++ col_name ++ ": "
                        ++ str_of_nat negative_prices
                        ++ " negative price values")))
        else ret tt) ;;;
   let string_columns := select_dtypes ["string"; "object"] df in
   for_each string_columns
     (fun col =>
        let col_name := name col in
        let empty_strings := empty_string_count col in
        when (0 <? empty_strings)%nat
          (modify (append_warning
                     ("Column " ++ col_name ++ ": "
                      ++ str_of_nat empty_strings
                      ++ " empty string values")))))%check.

Definition _calculate_quality_score (results : Results) : Z :=
  let error_count := Z.of_nat (List.length (errors results)) in
  let warning_count := Z.of_nat (List.length (warnings results)) in
  let issue_count := Z.of_nat (List.length (issues results)) in
  let score := 100%Z in
  let score := (score - error_count * 10)%Z in
  let score := (score - warning_count * 5)%Z in
  let score := (score - issue_count * 2)%Z in
  Z.max 0 score.

(** [mask &= s.notna()] *)
Definition mask_and_notna (mask : list bool) (s : Series) : list bool :=
  map (fun '(m, v) => m && notna v) (combine mask (values s)).

Definition _count_valid_rows (df : DataFrame) (tname : string)
  (results : Results) : result nat :=
  match errors results with
  | _ :: _ => Ok 0%nat
  | [] =>
      let valid_mask := repeat true (len df) in
      (required_columns <- SchemaReader.get_required_columns schemas tname ;;
       let valid_mask :=
         fold_left
           (fun mask col_name =>
              match get_col df col_name with
              | Some col => mask_and_notna mask col
              | None => mask
              end) required_columns valid_mask in
       Ok (List.length (filter (fun b => b) valid_mask)))%result
  end.

Definition validate_dataframe (df : DataFrame) (tname : string)
  (self : Validator) : Results * Validator :=
  let results :=
    {| table_name := tname; total_rows := len df; valid_rows := 0;
       issues := []; warnings := []; errors := [];
       data_quality_score := 0 |} in
  let body :=
    (_validate_required_columns df tname ;;;
     _validate_data_types df tname ;;;
     _validate_required_fields df tname ;;;
     _validate_data_ranges df tname ;;;
     r <-- read ;;
     modify (set_score (_calculate_quality_score r)) ;;;
     r <-- read ;;
     n <-- lift (_count_valid_rows df tname r) ;;
     modify (set_valid_rows n))%check in
  let results :=
    match body results with
    | (Ok _, results) => results
    | (Raise e, results) =>
        append_error ("Validation process failed: " ++ str_of_exn e) results
    end in
  (results, {| validation_results :=
                 dict_set tname results (validation_results self) |}).
End Checks.

(** The dictionary [get_validation_summary] returns; the overall score is
    the quotient [score_total / tables_validated] of its two components. *)
Record Summary : Type := {
  tables_validated : nat;
  score_total : Z;
  total_rows_sum : nat;
  total_valid_rows : nat;
  tables_with_errors : nat;
  tables_with_warnings : nat
}.

Definition get_validation_summary (self : Validator) : Summary :=
  fold_left
    (fun summary '(_, results) =>
       {| tables_validated := tables_validated summary;
          score_total := (score_total summary + data_quality_score results)%Z;
          total_rows_sum := total_rows_sum summary + total_rows results;
          total_valid_rows := total_valid_rows summary + valid_rows results;
          tables_with_errors :=
            tables_with_errors summary
            + (if truthy (errors results) then 1 else 0);
          tables_with_warnings :=
            tables_with_warnings summary
            + (if truthy (warnings results) then 1 else 0) |})
    (validation_results self)
    {| tables_validated := List.length (validation_results self);
       score_total := 0; total_rows_sum := 0; total_valid_rows := 0;
       tables_with_errors := 0; tables_with_warnings := 0 |}.

End DataValidator.

(* ================================================================== *)
(** ** src/processors/data_transformer.py *)

Module DataTransformer.

(** A JSON scalar of a record. *)
Inductive json : Type :=
| JNull
| JInt (z : Z)
| JFloat (f : float)
| JStr (s : string).

Record Metadata : Type := {
  table_name : string;
  record_count : nat;
  column_count : nat;
  columns : list string;
  data_types : dict string;
  statistics : dict (dict json)
}.

(** The value [transform_dataframe] returns: keys [metadata] and [data]. *)
Record Transformed : Type := {
  metadata : Metadata;
  data : list (dict json)
}.

Record Stats : Type := {
  original_rows : nat;
  transformed_rows : nat;
  stats_columns : list string
}.

(** The transformer object: [self.transformation_stats]. *)
Record Transformer : Type := {
  transformation_stats : dict Stats
}.

Definition init : Transformer := {| transformation_stats := [] |}.

(** [for col in df.select_dtypes(include=...).columns:
       df[col] = f(df[col])] *)
Definition update_selected (include : list string) (f : Series -> Series)
  (df : DataFrame) : DataFrame :=
  {| Pandas.columns :=
       map (fun c => if selected include c then f c else c) (Pandas.columns df);
     index := index df |}.

Definition _clean_dataframe (df : DataFrame) (tname : string) : DataFrame :=
  let df_clean := df in
  let df_clean := update_selected ["Int64"] (where_ notna) df_clean in
  let df_clean :=
    update_selected ["string"; "object"]
      (fun s => where_ ne_empty (where_ notna s)) df_clean in
  let df_clean := update_selected ["float64"] (where_ notna) df_clean in
  df_clean.

(** The value a record gets for a cell: [None] when [pd.isna], else the
    native Python value. *)
Definition json_of_value (v : value) : json :=
  if isna v then JNull
  else match v with
       | VInt z => JInt z
       | VFloat f => JFloat f
       | VStr s => JStr s
       | NA | PyNone => JNull
       end.

Section Transform.
Variable lib : Library.

(** A cell as [df.iterrows()] yields it: a missing cell comes as a missing
    value, a present one as the library casts it. *)
Definition cast_cell (df : DataFrame) (c : Series) (v : value) : value :=
  if isna v then v else row_cast lib df c v.

(** [row.items()] of row [i] of [df.iterrows()]. *)
Definition row_items (df : DataFrame) (i : nat) : list (string * value) :=
  map (fun c => (name c, cast_cell df c (nth i (values c) NA)))
    (Pandas.columns df).

Definition _convert_to_records (df : DataFrame) (tname : string)
  : list (dict json) :=
  map (fun i =>
         fold_left
           (fun record '(col_name, value) =>
              dict_set col_name (json_of_value value) record)
           (row_items df i) [])
    (seq 0 (len df)).

Definition _generate_metadata (df : DataFrame) (tname : string) : Metadata :=
  let data_types :=
    fold_left (fun d c => dict_set (name c) (dtype c) d) (Pandas.columns df) [] in
  let numeric_columns := select_dtypes ["int64"; "Int64"; "float64"] df in
  let statistics :=
    fold_left
      (fun st col =>
         if negb (all_na col) then
           dict_set (name col)
             [("min", json_of_value (series_min col));
              ("max", json_of_value (series_max col));
              ("mean", json_of_value (series_mean lib col));
              ("null_count", JInt (Z.of_nat (null_count col)))] st
         else st)
      numeric_columns [] in
  let statistics :=
    fold_left
      (fun st col =>
         let st := if negb (dict_mem (name col) st)
                   then dict_set (name col) [] st else st in
         let entry := match dict_get (name col) st with
                      | Some e => e
                      | None => []
                      end in
         dict_set (name col)
           (dict_set "null_count" (JInt (Z.of_nat (null_count col))) entry) st)
      (Pandas.columns df) statistics in
  {| table_name := tname;
     record_count := len df;
     column_count := List.length (column_names df);
     columns := column_names df;
     data_types := data_types;
     statistics := statistics |}.

(** An exception of the data-frame library while a table is being
    transformed, if any; [transform_dataframe] logs and re-raises it. *)
Variable library_error : string -> option exn.

Definition transform_dataframe (df : DataFrame) (tname : string)
  (self : Transformer) : result Transformed * Transformer :=
  match library_error tname with
  | Some e => (Raise e, self)
  | None =>
      let df_clean := _clean_dataframe df tname in
      let records := _convert_to_records df_clean tname in
      let metadata := _generate_metadata df_clean tname in
      let result := {| metadata := metadata; data := records |} in
      (Ok result,
       {| transformation_stats :=
            dict_set tname
              {| original_rows := len df;
                 transformed_rows := List.length records;
                 stats_columns := column_names df |}
              (transformation_stats self) |})
  end.

(** [transform_all_tables]: a table whose transformation raises is
    skipped. *)
Definition transform_all_tables (data_dict : dict DataFrame)
  (self : Transformer) : dict Transformed * Transformer :=
  fold_left
    (fun '(transformed_data, self) '(tname, df) =>
       match transform_dataframe df tname self with
       | (Ok t, self') => (dict_set tname t transformed_data, self')
       | (Raise _, self') => (transformed_data, self')
       end)
    data_dict ([], self).
End Transform.

(** The summary dictionary; the keys [total_original_records] and [tables]
    are absent ([None]) from the summary of a transformer without
    statistics. *)
Record TransformationSummary : Type := {
  tables_transformed : nat;
  summary_total_records : nat;
  total_original_records : option nat;
  summary_tables : option (dict (nat * nat))
}.

Definition get_transformation_summary (self : Transformer)
  : TransformationSummary :=
  let stats := transformation_stats self in
  if negb (truthy stats) then
    {| tables_transformed := 0;
       summary_total_records := 0;
       total_original_records := None;
       summary_tables := None |}
  else
    {| tables_transformed := List.length stats;
       summary_total_records :=
         list_sum (map (fun kv => transformed_rows (snd kv)) stats);
       total_original_records :=
         Some (list_sum (map (fun kv => original_rows (snd kv)) stats));
       summary_tables :=
         Some (fold_left
                 (fun d '(tname, st) =>
                    dict_set tname (transformed_rows st,
                                    List.length (stats_columns st)) d)
                 stats []) |}.

Record TableInfo : Type := {
  info_record_count : nat;
  info_columns : list string
}.

Record CombinedMetadata : Type := {
  dataset_name : string;
  table_count : nat;
  total_records : nat;
  tables_info : dict TableInfo
}.

(** The combined dataset: keys [metadata] and [tables]. *)
Record Combined : Type := {
  combined_metadata : CombinedMetadata;
  tables : dict (list (dict json))
}.

Definition create_combined_dataset (transformed_data : dict Transformed)
  : Combined :=
  let combined :=
    {| combined_metadata :=
         {| dataset_name := "retail_db_combined";
            table_count := List.length transformed_data;
            total_records := 0;
            tables_info := [] |};
       tables := [] |} in
  fold_left
    (fun combined '(tname, table_data) =>
       let record_count := List.length (data table_data) in
       let md := combined_metadata combined in
       {| combined_metadata :=
            {| dataset_name := dataset_name md;
               table_count := table_count md;
               total_records := total_records md + record_count;
               tables_info :=
                 dict_set tname
                   {| info_record_count := record_count;
                      info_columns := columns (metadata table_data) |}
                   (tables_info md) |};
          tables := dict_set tname (data table_data) (tables combined) |})
    transformed_data combined.

End DataTransformer.

(* ================================================================== *)
(** ** src/utils/config.py: the settings the pipeline reads *)

Module Config.

(** The keys of settings.yaml that the pipeline looks up with
    [get_setting]; [None] where the key is absent. *)
Record Settings : Type := {
  processing_validate_data : option bool;
  output_individual_files : option bool;
  output_combined_file : option bool;
  output_base_path : option string;
  output_combined_filename : option string
}.

(** [config.get_setting(key, default)] *)
Definition get_setting {A} (field : option A) (default : A) : A :=
  match field with
  | Some v => v
  | None => default
  end.

End Config.

(* ================================================================== *)
(** ** src/writers/json_writer.py *)

Module JsonWriter.

Record WriteStat : Type := {
  file_path : string;
  record_count : nat
}.

(** The writer object: [self.write_stats]. *)
Record Writer : Type := {
  write_stats : dict WriteStat
}.

Definition init : Writer := {| write_stats := [] |}.

Section Write.
Variable settings : Config.Settings.
(** The error, if any, that opening or writing the file at a path raises. *)
Variable write_error : string -> option exn.
(** Whether the file at a path exists and parses when read back. *)
Variable readable : string -> bool.

Definition _get_table_output_path (tname : string) : string :=
  let base_path :=
    Config.get_setting (Config.output_base_path settings) "data/output" in
  path_join base_path (tname ++ ".json").

Definition _get_combined_output_path : string :=
  let base_path :=
    Config.get_setting (Config.output_base_path settings) "data/output" in
  let filename :=
    Config.get_setting (Config.output_combined_filename settings)
      "retail_db_combined.json" in
  path_join base_path filename.

Definition write_table_json (table_data : DataTransformer.Transformed)
  (tname : string) (self : Writer) : result string * Writer :=
  let output_path := _get_table_output_path tname in
  match write_error output_path with
  | Some e => (Raise e, self)
  | None =>
      let record_count := List.length (DataTransformer.data table_data) in
      (Ok output_path,
       {| write_stats :=
            dict_set tname
              {| file_path := output_path; record_count := record_count |}
              (write_stats self) |})
  end.

Definition write_combined_json (combined_data : DataTransformer.Combined)
  (self : Writer) : result string * Writer :=
  let output_path := _get_combined_output_path in
  match write_error output_path with
  | Some e => (Raise e, self)
  | None =>
      let total_records :=
        DataTransformer.total_records
          (DataTransformer.combined_metadata combined_data) in
      (Ok output_path,
       {| write_stats :=
            dict_set "_combined"
              {| file_path := output_path; record_count := total_records |}
              (write_stats self) |})
  end.

(** [write_all_tables]: a table whose write raises is skipped. *)
Definition write_all_tables
  (transformed_data : dict DataTransformer.Transformed) (self : Writer)
  : dict string * Writer :=
  fold_left
    (fun '(written_files, self) '(tname, table_data) =>
       match write_table_json table_data tname self with
       | (Ok path, self') => (dict_set tname path written_files, self')
       | (Raise _, self') => (written_files, self')
       end)
    transformed_data ([], self).

Definition validate_output_files (self : Writer) : dict bool :=
  fold_left
    (fun validation_results '(file_name, stats) =>
       dict_set file_name (readable (file_path stats)) validation_results)
    (write_stats self) [].
End Write.

(** The summary dictionary; the keys [total_duration_seconds] and [files]
    are absent from the summary of a writer without statistics, and
    [summary_files] is [None] then. *)
Record WriteSummary : Type := {
  files_written : nat;
  total_records : nat;
  summary_files : option (dict (nat * string))
}.

Definition get_write_summary (self : Writer) : WriteSummary :=
  if negb (truthy (write_stats self)) then
    {| files_written := 0; total_records := 0; summary_files := None |}
  else
    {| files_written := List.length (write_stats self);
       total_records :=
         list_sum (map (fun kv => record_count (snd kv)) (write_stats self));
       summary_files :=
         Some (fold_left
                 (fun d '(file_name, stats) =>
                    dict_set file_name
                      (record_count stats, file_path stats) d)
                 (write_stats self) []) |}.

(** [print_write_report]: it reads [summary['total_duration_seconds']],
    which the summary of a writer without statistics does not hold. *)
Definition print_write_report (self : Writer) : result unit :=
  match summary_files (get_write_summary self) with
  | None => Raise (KeyError "total_duration_seconds")
  | Some _ => Ok tt
  end.

End JsonWriter.

(* ================================================================== *)
(** ** src/main.py *)

Module Main.

(** Everything outside the process that a run depends on. *)
Record World : Type := {
  settings_yaml : option Config.Settings;        (* [None]: file unreadable *)
  schemas_yaml : option SchemaReader.Schemas;    (* [None]: file unreadable *)
  output_dir_error : option exn;                 (* raised by [mkdir] *)
  files : CsvReader.Files;
  pandas : Library;
  library_error : string -> option exn;
  write_error : string -> option exn;
  readable : string -> bool
}.

(** The module-level singletons the converter holds. *)
Record Converter : Type := {
  data_validator : DataValidator.Validator;
  data_transformer : DataTransformer.Transformer;
  json_writer : JsonWriter.Writer
}.

(** The state of a fresh process. *)
Definition init : Converter :=
  {| data_validator := DataValidator.init;
     data_transformer := DataTransformer.init;
     json_writer := JsonWriter.init |}.

Definition with_validator (v : DataValidator.Validator) (self : Converter) :=
  {| data_validator := v; data_transformer := data_transformer self;
     json_writer := json_writer self |}.

Definition with_transformer (t : DataTransformer.Transformer)
  (self : Converter) :=
  {| data_validator := data_validator self; data_transformer := t;
     json_writer := json_writer self |}.

Definition with_writer (w : JsonWriter.Writer) (self : Converter) :=
  {| data_validator := data_validator self;
     data_transformer := data_transformer self; json_writer := w |}.

(** The dictionary [_write_json_files] returns. *)
Record WriteResults : Type := {
  individual_files : option (dict string);
  combined_file : option string;
  validation : dict bool
}.

Record RunSummary : Type := {
  tables_processed : nat;
  total_rows_read : nat;
  total_rows_transformed : nat;
  files_written : nat;
  combined_file_created : bool
}.

Record Phases : Type := {
  reading_tables_read : nat;
  reading_total_rows : nat;
  validation_enabled : bool;
  validation_results : dict DataValidator.Results;
  transformation : DataTransformer.TransformationSummary;
  writing : JsonWriter.WriteSummary
}.

(** The results structure of a run. *)
Record RunResults : Type := {
  success : bool;
  summary : RunSummary;
  phases : Phases;
  output_files : WriteResults
}.

Section Run.
Variable w : World.

Definition _initialize_config : result (Config.Settings * SchemaReader.Schemas) :=
  match settings_yaml w with
  | None => Raise (FileNotFoundError "Settings file not found: config/settings.yaml")
  | Some settings =>
      match schemas_yaml w with
      | None => Raise (FileNotFoundError "Schemas file not found: config/schemas.yaml")
      | Some schemas =>
          match output_dir_error w with
          | Some e => Raise e
          | None => Ok (settings, schemas)
          end
      end
  end.

Definition _read_csv_data (schemas : SchemaReader.Schemas)
  : result (dict DataFrame) :=
  let data_dict := CsvReader.read_all_tables (pandas w) schemas (files w) in
  if negb (truthy data_dict) then
    Raise (ValueError "No CSV data was successfully read")
  else Ok data_dict.

Definition _validate_data (schemas : SchemaReader.Schemas)
  (data_dict : dict DataFrame) (self : Converter)
  : dict DataValidator.Results * Converter :=
  let '(validation_results, v) :=
    fold_left
      (fun '(validation_results, v) '(tname, df) =>
         let '(result, v') :=
           DataValidator.validate_dataframe schemas df tname v in
         (dict_set tname result validation_results, v'))
      data_dict ([], data_validator self) in
  (validation_results, with_validator v self).

Definition _transform_data (data_dict : dict DataFrame) (self : Converter)
  : result (dict DataTransformer.Transformed) * Converter :=
  let '(transformed_data, t) :=
    DataTransformer.transform_all_tables (pandas w) (library_error w)
      data_dict (data_transformer self) in
  let self := with_transformer t self in
  if negb (truthy transformed_data) then
    (Raise (ValueError "No data was successfully transformed"), self)
  else (Ok transformed_data, self).

Definition _write_json_files (settings : Config.Settings)
  (transformed_data : dict DataTransformer.Transformed) (self : Converter)
  : result WriteResults * Converter :=
  let individual_files :=
    Config.get_setting (Config.output_individual_files settings) true in
  let '(individual_results, wr) :=
    if individual_files then
      let '(written, wr) :=
        JsonWriter.write_all_tables settings (write_error w)
          transformed_data (json_writer self) in
      (Some written, wr)
    else (None, json_writer self) in
  let combined_file :=
    Config.get_setting (Config.output_combined_file settings) true in
  let '(combined_result, wr) :=
    if combined_file then
      let combined_data :=
        DataTransformer.create_combined_dataset transformed_data in
      match JsonWriter.write_combined_json settings (write_error w)
              combined_data wr with
      | (Ok path, wr') => (Ok (Some path), wr')
      | (Raise e, wr') => (Raise e, wr')
      end
    else (Ok None, wr) in
  match combined_result with
  | Raise e => (Raise e, with_writer wr self)
  | Ok combined_path =>
      match JsonWriter.print_write_report wr with
      | Raise e => (Raise e, with_writer wr self)
      | Ok _ =>
          let validation_results :=
            JsonWriter.validate_output_files (readable w) wr in
          (Ok {| individual_files := individual_results;
                 combined_file := combined_path;
                 validation := validation_results |},
           with_writer wr self)
      end
  end.

Definition rows_of (raw_data : dict DataFrame) : nat :=
  list_sum (map (fun kv => len (snd kv)) raw_data).

Definition _compile_results (raw_data : dict DataFrame)
  (validation_results : dict DataValidator.Results)
  (transformed_data : dict DataTransformer.Transformed)
  (write_results : WriteResults) (self : Converter) : RunResults :=
  {| success := true;
     summary :=
       {| tables_processed := List.length raw_data;
          total_rows_read := rows_of raw_data;
          total_rows_transformed :=
            list_sum (map (fun kv =>
                             List.length (DataTransformer.data (snd kv)))
                        transformed_data);
          files_written :=
            match individual_files write_results with
            | Some d => List.length d
            | None => 0
            end;
          combined_file_created :=
            match combined_file write_results with
            | Some _ => true
            | None => false
            end |};
     phases :=
       {| reading_tables_read := List.length raw_data;
          reading_total_rows := rows_of raw_data;
          validation_enabled := truthy validation_results;
          validation_results := validation_results;
          transformation :=
            DataTransformer.get_transformation_summary
              (data_transformer self);
          writing := JsonWriter.get_write_summary (json_writer self) |};
     output_files := write_results |}.

(** [run_conversion]: every phase's exception is logged and re-raised. *)
Definition run_conversion (validate_data : option bool) (self : Converter)
  : result RunResults * Converter :=
  match _initialize_config with
  | Raise e => (Raise e, self)
  | Ok (settings, schemas) =>
      match _read_csv_data schemas with
      | Raise e => (Raise e, self)
      | Ok raw_data =>
          let should_validate :=
            match validate_data with
            | Some b => b
            | None =>
                Config.get_setting
                  (Config.processing_validate_data settings) true
            end in
          let '(validation_results, self) :=
            if should_validate then _validate_data schemas raw_data self
            else ([], self) in
          match _transform_data raw_data self with
          | (Raise e, self) => (Raise e, self)
          | (Ok transformed_data, self) =>
              match _write_json_files settings transformed_data self with
              | (Raise e, self) => (Raise e, self)
              | (Ok write_results, self) =>
                  (Ok (_compile_results raw_data validation_results
                         transformed_data write_results self), self)
              end
          end
      end
  end.

End Run.

End Main.

(* ================================================================== *)
(** ** What each validation check appends, as lists *)

Module Findings.
Import DataValidator.

(** [results] with [E], [W] and [I] appended to its three lists. *)
Definition add_findings (E W I : list string) (r : Results) : Results :=
  {| table_name := table_name r; total_rows := total_rows r;
     valid_rows := valid_rows r; issues := issues r ++ I;
     warnings := warnings r ++ W; errors := errors r ++ E;
     data_quality_score := data_quality_score r |}.

Definition schema_names (sch : SchemaReader.TableSchema) : list string :=
  map fst (SchemaReader.sorted_by_position (SchemaReader.columns_of sch)).

Definition schema_dtypes (sch : SchemaReader.TableSchema) : dict string :=
  fold_left
    (fun dtypes '(col_name, col_config) =>
       dict_set col_name (SchemaReader.pandas_dtype_of col_config) dtypes)
    (SchemaReader.columns_of sch) [].

Definition schema_required (sch : SchemaReader.TableSchema) : list string :=
  map fst (filter (fun item => SchemaReader.is_required (snd item))
             (SchemaReader.columns_of sch)).

Definition presence_errors (names : list string) (df : DataFrame)
  : list string :=
  let missing := set_diff (to_set names) (to_set (column_names df)) in
  if truthy missing
  then [("Missing required columns: " ++ repr_list missing)%string] else [].

Definition presence_warnings (names : list string) (df : DataFrame)
  : list string :=
  let extra := set_diff (to_set (column_names df)) (to_set names) in
  if truthy extra then [("Extra columns found: " ++ repr_list extra)%string] else [].

Definition dtype_issue (df : DataFrame) (item : string * string)
  : list string :=
  match get_col df (fst item) with
  | Some col =>
      if negb (_types_compatible (dtype col) (snd item))
      then [("Column " ++ fst item ++ ": expected " ++ snd item
            ++ ", got " ++ dtype col)%string]
      else []
  | None => []
  end.

Definition required_field_error (df : DataFrame) (col_name : string)
  : list string :=
  match get_col df col_name with
  | Some col =>
      if (0 <? null_count col)%nat
      then [("Column " ++ col_name ++ ": " ++ str_of_nat (null_count col)
            ++ " null values in required field")%string]
      else []
  | None => []
  end.

Definition range_issue (col : Series) : list string :=
  if endswith (name col) "_id" then
    if (0 <? negative_count col)%nat
    then [("Column " ++ name col ++ ": " ++ str_of_nat (negative_count col)
          ++ " negative ID values")%string]
    else []
  else if endswith (name col) "_price" || endswith (name col) "_subtotal" then
    if (0 <? negative_count col)%nat
    then [("Column " ++ name col ++ ": " ++ str_of_nat (negative_count col)
          ++ " negative price values")%string]
    else []
  else [].

Definition empty_string_warning (col : Series) : list string :=
  if (0 <? empty_string_count col)%nat
  then [("Column " ++ name col ++ ": " ++ str_of_nat (empty_string_count col)
        ++ " empty string values")%string]
  else [].

(** All errors, warnings and issues of a table under a schema entry. *)
Definition all_errors (sch : SchemaReader.TableSchema) (df : DataFrame)
  : list string :=
  presence_errors (schema_names sch) df
  ++ flat_map (required_field_error df) (schema_required sch).

Definition all_warnings (sch : SchemaReader.TableSchema) (df : DataFrame)
  : list string :=
  presence_warnings (schema_names sch) df
  ++ flat_map empty_string_warning (select_dtypes ["string"; "object"] df).

Definition all_issues (sch : SchemaReader.TableSchema) (df : DataFrame)
  : list string :=
  flat_map (dtype_issue df) (schema_dtypes sch)
  ++ flat_map range_issue (select_dtypes ["int64"; "Int64"; "float64"] df).

(** Row [i] has a value in every required column the frame carries. *)
Definition row_complete (df : DataFrame) (required : list string) (i : nat)
  : bool :=
  forallb (fun col_name =>
             match get_col df col_name with
             | Some col => notna (nth i (values col) NA)
             | None => true
             end) required.

Definition complete_rows (df : DataFrame) (required : list string) : nat :=
  List.length (filter (row_complete df required) (seq 0 (len df))).

(** The record a validation that found its schema entry returns, up to
    the valid-row count [n]. *)
Definition found_results (sch : SchemaReader.TableSchema) (df : DataFrame)
  (tname : string) (n : nat) : Results :=
  {| table_name := tname; total_rows := len df; valid_rows := n;
     issues := all_issues sch df; warnings := all_warnings sch df;
     errors := all_errors sch df;
     data_quality_score :=
       Z.max 0 (100 - Z.of_nat (List.length (all_errors sch df)) * 10
                - Z.of_nat (List.length (all_warnings sch df)) * 5
                - Z.of_nat (List.length (all_issues sch df)) * 2) |}.

(** What the three loops of [_clean_dataframe] do to one column. *)
Definition clean_series (c : Series) : Series :=
  let c := if selected ["Int64"] c then where_ notna c else c in
  let c := if selected ["string"; "object"] c
           then where_ ne_empty (where_ notna c) else c in
  if selected ["float64"] c then where_ notna c else c.

(** The same on one cell: [where] keeps a cell that passes [cond]. *)
Definition where_value (cond : value -> bool) (dt : string) (v : value)
  : value :=
  if cond v then v else na_of dt.

Definition clean_value (c : Series) (v : value) : value :=
  let dt := dtype c in
  let v := if selected ["Int64"] c then where_value notna dt v else v in
  let v := if selected ["string"; "object"] c
           then where_value ne_empty dt (where_value notna dt v) else v in
  if selected ["float64"] c then where_value notna dt v else v.

(** The statistics entry of a column that only carries its null count. *)
Definition null_count_only (c : Series) : dict DataTransformer.json :=
  [("null_count", DataTransformer.JInt (Z.of_nat (null_count c)))].

End Findings.

(* ================================================================== *)
(** ** Concrete tables and runs *)

Module Examples.

Definition column (t : string) (p : Z) (r : bool) : SchemaReader.ColumnConfig :=
  {| SchemaReader.cc_type := Some t;
     SchemaReader.cc_position := Some p;
     SchemaReader.cc_required := Some r |}.

(** Scenario A: [id] Integer required at 0, [name] Text required at 1. *)
Definition people_schema : SchemaReader.TableSchema :=
  {| SchemaReader.ts_columns :=
       Some [("id", column "int64" 0 true); ("name", column "string" 1 true)] |}.

Definition schemas : SchemaReader.Schemas := [("people", people_schema)].

Definition people_lines : list (list string) :=
  [["1"; "Alice"]; ["2"; EmptyString]].

(** The coerced rows [{id: 1, name: Alice}, {id: 2, name: Null}]. *)
Definition people : DataFrame :=
  {| Pandas.columns :=
       [ {| name := "id"; dtype := "Int64"; values := [VInt 1; VInt 2] |};
         {| name := "name"; dtype := "string";
            values := [VStr "Alice"; NA] |} ];
     index := 2 |}.

(** A text column with two empty strings among three rows. *)
Definition names_col : Series :=
  {| name := "name"; dtype := "string";
     values := [VStr EmptyString; VStr "Bob"; VStr EmptyString] |}.

Definition blanks : DataFrame :=
  {| Pandas.columns :=
       [ {| name := "id"; dtype := "Int64";
            values := [VInt 1; VInt 2; VInt 3] |};
         names_col ];
     index := 3 |}.

(** A table whose integer column [qty] and float column [price] hold no
    value at all. *)
Definition qty_col : Series :=
  {| name := "qty"; dtype := "Int64"; values := [NA; NA] |}.

Definition price_col : Series :=
  {| name := "price"; dtype := "float64";
     values := [VFloat PrimFloat.nan; VFloat PrimFloat.nan] |}.

Definition hollow : DataFrame :=
  {| Pandas.columns :=
       [ {| name := "id"; dtype := "Int64"; values := [VInt 7; VInt 8] |};
         qty_col; price_col ];
     index := 2 |}.

Definition ids (l : list Z) : DataFrame :=
  {| Pandas.columns :=
       [ {| name := "id"; dtype := "Int64"; values := map VInt l |} ];
     index := List.length l |}.

Definition no_error (_ : string) : option exn := None.

Definition digit_of (c : ascii) : option Z :=
  let n := nat_of_ascii c in
  if (48 <=? n)%nat && (n <=? 57)%nat then Some (Z.of_nat (n - 48)) else None.

Fixpoint parse_digits (s : string) (acc : Z) : option Z :=
  match s with
  | EmptyString => Some acc
  | String c r =>
      match digit_of c with
      | Some d => parse_digits r (10 * acc + d)%Z
      | None => None
      end
  end.

Definition in_int64 (z : Z) : bool :=
  ((- 2 ^ 63 <=? z) && (z <? 2 ^ 63))%Z.

(** A decimal integer literal that fits 64 signed bits. *)
Definition parse_int64 (s : string) : option Z :=
  let body (sgn : Z) (r : string) :=
    match r with
    | EmptyString => None
    | _ => match parse_digits r 0 with
           | Some n => if in_int64 (sgn * n) then Some (sgn * n)%Z else None
           | None => None
           end
    end in
  match s with
  | String "-"%char r => body (-1)%Z r
  | String "+"%char r => body 1%Z r
  | _ => body 1%Z s
  end.

(** The mean of a few small integers, where no rounding occurs. *)
Definition small_mean (vs : list value) : float :=
  let to_float v :=
    match v with
    | VInt z =>
        if (z <? 0)%Z
        then PrimFloat.opp (PrimFloat.of_uint63 (Uint63.of_Z (- z)))
        else PrimFloat.of_uint63 (Uint63.of_Z z)
    | VFloat f => f
    | _ => PrimFloat.nan
    end in
  PrimFloat.div
    (fold_left (fun acc v => PrimFloat.add acc (to_float v)) vs PrimFloat.zero)
    (PrimFloat.of_uint63 (Uint63.of_Z (Z.of_nat (List.length vs)))).

(** The library on the tables of the examples.  Their integer tokens are
    plain decimal literals or no number at all, they have no float token,
    no line of theirs is longer than its names, and their rows come out of
    [iterrows] as they are (columns of two dtypes, or integers without a
    missing cell). *)
Definition library : Library :=
  {| to_int64 :=
       fun _ tok =>
         match parse_int64 tok with
         | Some z => Ok z
         | None => Raise (ValueError ("Unable to parse string: " ++ tok))
         end;
     to_float64 :=
       fun tok => Raise (ValueError ("could not convert string to float: "
                                     ++ tok));
     leading_fields := fun _ _ => Raise ParserError;
     row_cast := fun _ _ v => v;
     mean_of := small_mean |}.

(** Scenario C: two tables of 3 and 5 records. *)
Definition three_and_five : dict DataTransformer.Transformed :=
  fst (DataTransformer.transform_all_tables library no_error
         [("a", ids [1; 2; 3]%Z); ("b", ids [1; 2; 3; 4; 5]%Z)]
         DataTransformer.init).

Definition default_settings : Config.Settings :=
  {| Config.processing_validate_data := None;
     Config.output_individual_files := None;
     Config.output_combined_file := None;
     Config.output_base_path := None;
     Config.output_combined_filename := None |}.



(** A run over the file of Scenario A, nothing failing. *)
Definition world_people : Main.World :=
  {| Main.settings_yaml := Some default_settings;
     Main.schemas_yaml := Some schemas;
     Main.output_dir_error := None;
     Main.files := fun _ => Some people_lines;
     Main.pandas := library;
     Main.library_error := no_error;
     Main.write_error := no_error;
     Main.readable := fun _ => true |}.

End Examples.

(* ================================================================== *)
(** ** Column order, and further concrete runs *)

Module Text.

(** A character that [repr] writes as it is between single quotes. *)
Definition plain_char (c : ascii) : bool :=
  printable c && negb (Ascii.eqb c "'"%char) && negb (Ascii.eqb c "\"%char).

(** A string of such characters: it holds no quote, no backslash and no
    character that does not print. *)
Fixpoint plain (s : string) : bool :=
  match s with
  | EmptyString => true
  | String c r => plain_char c && plain r
  end.

End Text.

Module Order.

(** The order [get_column_names] sorts the schema's columns by: the
    [position] of the left item does not exceed that of the right one. *)
Definition by_position (a b : string * SchemaReader.ColumnConfig) : Prop :=
  (SchemaReader.position_of a <= SchemaReader.position_of b)%Z.

End Order.

Module Scenarios.
Import Examples.

(** The schema of Scenario A with its columns listed against their
    positions. *)
Definition shuffled_schema : SchemaReader.TableSchema :=
  {| SchemaReader.ts_columns :=
       Some [("name", column "string" 1 true); ("id", column "int64" 0 true)] |}.

Definition shuffled_schemas : SchemaReader.Schemas :=
  [("people", shuffled_schema)].





(** A table of the examples as [transform_dataframe] returns it. *)
Definition transformed (df : DataFrame) (tname : string)
  : DataTransformer.Transformed :=
  {| DataTransformer.metadata :=
       DataTransformer._generate_metadata library
         (DataTransformer._clean_dataframe df tname) tname;
     DataTransformer.data :=
       DataTransformer._convert_to_records library
         (DataTransformer._clean_dataframe df tname) tname |}.

(** The first table of Scenario C. *)
Definition first_table : DataTransformer.Transformed :=
  transformed (ids [1; 2; 3]%Z) "a".


(** A run over the file of Scenario A in which only the combined file
    cannot be written. *)
Definition world_combined_unwritable : Main.World :=
  {| Main.settings_yaml := Some default_settings;
     Main.schemas_yaml := Some schemas;
     Main.output_dir_error := None;
     Main.files := fun _ => Some people_lines;
     Main.pandas := library;
     Main.library_error := no_error;
     Main.write_error :=
       fun path =>
         if String.eqb path "data/output/retail_db_combined.json"
         then Some (OSError "No space left on device")
         else None;
     Main.readable := fun _ => true |}.

End Scenarios.

(* ================================================================== *)
(** * Properties *)

(* ------------------------------------------------------------------ *)
(** *** Dictionaries built by loops *)

Section DictLemmas.
Context {V : Type}.

Lemma dict_get_set_same k (v : V) d : dict_get k (dict_set k v d) = Some v.
Proof.
  induction d as [|[k' v'] d IH]; simpl.
  - now rewrite String.eqb_refl.
  - destruct (String.eqb k' k) eqn:E; simpl.
    + now rewrite String.eqb_refl.
    + now rewrite E.
Qed.

Lemma dict_get_set_other k k' (v : V) d :
  k <> k' -> dict_get k (dict_set k' v d) = dict_get k d.
Proof.
  intros Hne. induction d as [|[k0 v0] d IH]; simpl.
  - destruct (String.eqb k' k) eqn:E; [|reflexivity].
    apply String.eqb_eq in E. congruence.
  - destruct (String.eqb k0 k') eqn:E; simpl.
    + apply String.eqb_eq in E. subst k0.
      destruct (String.eqb k' k) eqn:E'; [|reflexivity].
      apply String.eqb_eq in E'. congruence.
    + now rewrite IH.
Qed.

Lemma dict_set_fresh k (v : V) d :
  ~ In k (dict_keys d) -> dict_set k v d = d ++ [(k, v)].
Proof.
  induction d as [|[k' v'] d IH]; simpl; intros Hk; [reflexivity|].
  destruct (String.eqb k' k) eqn:E.
  - apply String.eqb_eq in E. subst. exfalso. apply Hk. now left.
  - rewrite IH; [reflexivity|]. intros Hin. apply Hk. now right.
Qed.

Lemma dict_get_In k (v : V) d :
  dict_ok d -> In (k, v) d -> dict_get k d = Some v.
Proof.
  unfold dict_ok. induction d as [|[k' v'] d IH]; simpl; intros Hnd Hin; [contradiction|].
  inversion Hnd as [|? ? Hk Hnd']; subst.
  destruct Hin as [Heq|Hin].
  - inversion Heq; subst. now rewrite String.eqb_refl.
  - destruct (String.eqb k' k) eqn:E.
    + apply String.eqb_eq in E. subst. exfalso. apply Hk.
      change k with (fst (k, v)). now apply in_map.
    + now apply IH.
Qed.

Lemma dict_mem_get k (d : dict V) :
  dict_mem k d = false -> dict_get k d = None.
Proof.
  unfold dict_mem, mem. induction d as [|[k' v'] d IH]; simpl; [reflexivity|].
  rewrite String.eqb_sym. destruct (String.eqb k' k); simpl; [discriminate|exact IH].
Qed.

(** A loop whose step [upd x] rewrites only the entry at [key x]. *)
Section FoldUpdate.
Context {A : Type}.
Variable key : A -> string.
Variable upd : A -> dict V -> dict V.
Variable F : A -> option V -> option V.
Hypothesis upd_other :
  forall x d k, k <> key x -> dict_get k (upd x d) = dict_get k d.
Hypothesis upd_same :
  forall x d, dict_get (key x) (upd x d) = F x (dict_get (key x) d).

Lemma fold_update_other items d k :
  ~ In k (map key items) ->
  dict_get k (fold_left (fun d x => upd x d) items d) = dict_get k d.
Proof.
  revert d. induction items as [|a items IH]; intros d Hk; simpl; [reflexivity|].
  rewrite IH by (intros Hin; apply Hk; now right).
  apply upd_other. intros Heq. apply Hk. left. now symmetry.
Qed.

Lemma fold_update_same items d x :
  NoDup (map key items) -> In x items ->
  dict_get (key x) (fold_left (fun d x => upd x d) items d)
  = F x (dict_get (key x) d).
Proof.
  revert d. induction items as [|a items IH]; intros d Hnd Hin; [contradiction|].
  simpl in Hnd. inversion Hnd as [|? ? Ha Hnd']; subst. simpl.
  destruct Hin as [Heq|Hin].
  - subst a. rewrite fold_update_other by exact Ha. apply upd_same.
  - rewrite IH by assumption. f_equal. apply upd_other.
    intros Heq. apply Ha. rewrite <- Heq. now apply in_map.
Qed.
End FoldUpdate.

(** A loop that sets a fresh key at each step appends its items. *)
Lemma fold_set_append {A} (key : A -> string) (val : A -> V) items :
  forall d,
    NoDup (dict_keys d ++ map key items) ->
    fold_left (fun d x => dict_set (key x) (val x) d) items d
    = d ++ map (fun x => (key x, val x)) items.
Proof.
  induction items as [|a items IH]; intros d Hnd; simpl.
  - now rewrite app_nil_r.
  - assert (Hfresh : ~ In (key a) (dict_keys d)).
    { intros Hin. apply NoDup_remove_2 in Hnd. apply Hnd.
      apply in_or_app. now left. }
    rewrite (dict_set_fresh _ _ _ Hfresh).
    rewrite IH.
    + now rewrite <- app_assoc.
    + unfold dict_keys in *. rewrite map_app. simpl. rewrite <- app_assoc. exact Hnd.
Qed.
End DictLemmas.

Lemma NoDup_map_inj {A B} (f : A -> B) (l : list A) a b :
  NoDup (map f l) -> In a l -> In b l -> f a = f b -> a = b.
Proof.
  induction l as [|x l IH]; simpl; intros Hnd Ha Hb Heq; [contradiction|].
  inversion Hnd as [|? ? Hx Hnd']; subst.
  destruct Ha as [Ha|Ha], Hb as [Hb|Hb]; subst; auto.
  - exfalso. apply Hx. rewrite Heq. now apply in_map.
  - exfalso. apply Hx. rewrite <- Heq. now apply in_map.
Qed.

Lemma filter_keeps_labels_distinct {A B} (label : A -> B) (keep : A -> bool) :
  forall cols : list A,
    NoDup (map label cols) -> NoDup (map label (filter keep cols)).
Proof.
  intros cols. induction cols as [|c cols IH]; intros Hdistinct; simpl.
  - constructor.
  - simpl in Hdistinct. apply NoDup_cons_iff in Hdistinct.
    destruct Hdistinct as [Hfresh Hrest].
    destruct (keep c); simpl; [|now apply IH].
    constructor; [|now apply IH].
    intros Hin. apply Hfresh. apply in_map_iff in Hin.
    destruct Hin as [c' [Hlabel Hc']]. apply filter_In in Hc'.
    rewrite <- Hlabel. apply in_map. tauto.
Qed.

(* ------------------------------------------------------------------ *)
(** *** Validation: what a run of the checks leaves in [results] *)

Section ValidatorRuns.
Import DataValidator Findings.

Lemma add_findings_nil r : add_findings [] [] [] r = r.
Proof. destruct r; unfold add_findings; simpl; now rewrite !app_nil_r. Qed.

Lemma add_findings_add E1 W1 I1 E2 W2 I2 r :
  add_findings E2 W2 I2 (add_findings E1 W1 I1 r)
  = add_findings (E1 ++ E2) (W1 ++ W2) (I1 ++ I2) r.
Proof. unfold add_findings; simpl; now rewrite !app_assoc. Qed.

Lemma append_error_findings msg r : append_error msg r = add_findings [msg] [] [] r.
Proof. destruct r; unfold append_error, add_findings; simpl; now rewrite !app_nil_r. Qed.

Lemma append_warning_findings msg r : append_warning msg r = add_findings [] [msg] [] r.
Proof. destruct r; unfold append_warning, add_findings; simpl; now rewrite !app_nil_r. Qed.

Lemma append_issue_findings msg r : append_issue msg r = add_findings [] [] [msg] r.
Proof. destruct r; unfold append_issue, add_findings; simpl; now rewrite !app_nil_r. Qed.

Lemma for_each_findings {A} (l : list A) (body : A -> check unit) (E W I : A -> list string) :
  (forall x r, body x r = (Ok tt, add_findings (E x) (W x) (I x) r)) ->
  forall r, for_each l body r
            = (Ok tt, add_findings (flat_map E l) (flat_map W l) (flat_map I l) r).
Proof.
  intros Hbody. induction l as [|x l IH]; intros r; simpl.
  - unfold ret. now rewrite add_findings_nil.
  - unfold cbind. rewrite Hbody, IH, add_findings_add. reflexivity.
Qed.

Variable schemas : SchemaReader.Schemas.
Variable tname : string.
Variable sch : SchemaReader.TableSchema.
Hypothesis Hsch : SchemaReader.get_table_schema schemas tname = Ok sch.
Variable df : DataFrame.

Lemma required_columns_run r :
  _validate_required_columns schemas df tname r
  = (Ok tt, add_findings (presence_errors (schema_names sch) df)
              (presence_warnings (schema_names sch) df) [] r).
Proof.
  unfold _validate_required_columns, SchemaReader.get_column_names, cbind, lift.
  rewrite Hsch. simpl. unfold presence_errors, presence_warnings, schema_names, when, modify, ret.
  destruct (truthy (set_diff _ _)); destruct (truthy (set_diff _ _)); 
    rewrite ?append_error_findings, ?append_warning_findings, ?add_findings_add; simpl;
    rewrite ?add_findings_nil; reflexivity.
Qed.

Lemma data_types_run r :
  _validate_data_types schemas df tname r
  = (Ok tt, add_findings [] [] (flat_map (dtype_issue df) (schema_dtypes sch)) r).
Proof.
  unfold _validate_data_types, SchemaReader.get_pandas_dtypes, cbind, lift.
  rewrite Hsch. simpl.
  rewrite (for_each_findings _ _ (fun _ => []) (fun _ => []) (dtype_issue df)).
  - f_equal. f_equal; induction (fold_left _ _ _); simpl; auto.
  - intros [c e] r'. unfold dtype_issue; simpl. destruct (get_col df c); [|unfold ret; now rewrite add_findings_nil].
    unfold when, modify, ret. destruct (negb _); simpl; [now rewrite append_issue_findings | now rewrite add_findings_nil].
Qed.

Lemma flat_map_nil {A B} (l : list A) : flat_map (fun _ : A => @nil B) l = [].
Proof. induction l; simpl; auto. Qed.

Lemma required_fields_run r :
  _validate_required_fields schemas df tname r
  = (Ok tt, add_findings (flat_map (required_field_error df) (schema_required sch)) [] [] r).
Proof.
  unfold _validate_required_fields, SchemaReader.get_required_columns, cbind, lift.
  rewrite Hsch. simpl.
  rewrite (for_each_findings _ _ (required_field_error df) (fun _ => []) (fun _ => [])).
  - now rewrite !flat_map_nil.
  - intros c r'. unfold required_field_error. destruct (get_col df c); [|unfold ret; now rewrite add_findings_nil].
    unfold when, modify, ret. destruct (0 <? _)%nat; simpl; [now rewrite append_error_findings | now rewrite add_findings_nil].
Qed.

Lemma data_ranges_run r :
  _validate_data_ranges df tname r
  = (Ok tt, add_findings []
              (flat_map empty_string_warning (select_dtypes ["string"; "object"] df))
              (flat_map range_issue (select_dtypes ["int64"; "Int64"; "float64"] df)) r).
Proof.
  unfold _validate_data_ranges, cbind.
  rewrite (for_each_findings _ _ (fun _ => []) (fun _ => []) range_issue).
  - rewrite (for_each_findings _ _ (fun _ => []) empty_string_warning (fun _ => [])).
    + rewrite add_findings_add, !flat_map_nil. simpl. now rewrite app_nil_r.
    + intros c r'. unfold empty_string_warning, when, modify, ret.
      destruct (0 <? _)%nat; simpl; [now rewrite append_warning_findings | now rewrite add_findings_nil].
  - intros c r'. unfold range_issue, when, modify, ret.
    destruct (endswith (name c) "_id").
    + destruct (0 <? _)%nat; simpl; [now rewrite append_issue_findings | now rewrite add_findings_nil].
    + destruct (endswith (name c) "_price" || endswith (name c) "_subtotal").
      * destruct (0 <? _)%nat; simpl; [now rewrite append_issue_findings | now rewrite add_findings_nil].
      * now rewrite add_findings_nil.
Qed.

Lemma count_valid_rows_total r :
  exists n, _count_valid_rows schemas df tname r = Ok n.
Proof.
  unfold _count_valid_rows, SchemaReader.get_required_columns.
  destruct (errors r); [|eauto]. rewrite Hsch. simpl. eauto.
Qed.

Lemma validate_dataframe_found self :
  exists n,
    _count_valid_rows schemas df tname (found_results sch df tname 0) = Ok n /\
    validate_dataframe schemas df tname self
    = (found_results sch df tname n,
       {| validation_results := dict_set tname (found_results sch df tname n) (validation_results self) |}).
Proof.
  destruct (count_valid_rows_total (found_results sch df tname 0)) as [n Hn].
  exists n. split; [exact Hn|].
  unfold validate_dataframe, cbind.
  rewrite required_columns_run, data_types_run, required_fields_run, data_ranges_run.
  rewrite !add_findings_add. simpl. rewrite !app_nil_r.
  unfold read, modify, lift. simpl.
  fold (all_errors sch df) (all_warnings sch df) (all_issues sch df).
  change (set_score _ _) with (found_results sch df tname 0).
  rewrite Hn. reflexivity.
Qed.







End ValidatorRuns.

(* ------------------------------------------------------------------ *)
(** *** Quality score and valid-row count *)

Section ValidatorClaims.
Import DataValidator Findings.



(** The result of a validation that finds no schema entry. *)
Lemma validate_dataframe_unknown schemas df tname self :
  dict_get tname schemas = None ->
  fst (validate_dataframe schemas df tname self)
  = {| table_name := tname; total_rows := len df; valid_rows := 0;
       issues := []; warnings := [];
       errors := [("Validation process failed: "
                   ++ repr_str ("Schema not found for table: " ++ tname))%string];
       data_quality_score := 0 |}.
Proof.
  intros H. unfold validate_dataframe, _validate_required_columns, cbind, lift,
    SchemaReader.get_column_names, SchemaReader.get_table_schema.
  rewrite H. reflexivity.
Qed.










(** C3, at a failing input.  In Scenario A the only error is a
    required-field-null error, no column is missing, and one row has a value
    in every required column; the specification counts that row as valid,
    and [_count_valid_rows] returns 0. *)
Theorem required_null_error_voids_valid_rows :
  let res := fst (validate_dataframe Examples.schemas Examples.people "people" init) in
  errors res = ["Column name: 1 null values in required field"] /\
  presence_errors (schema_names Examples.people_schema) Examples.people = [] /\
  complete_rows Examples.people (schema_required Examples.people_schema) = 1 /\
  valid_rows res = 0 /\
  valid_rows res
  <> complete_rows Examples.people (schema_required Examples.people_schema).
Proof. repeat split; try reflexivity. discriminate. Qed.

(** C4, evaluated.  Scenario A: validation returns exactly one error,
    the required-field-null error on column [name], no warning and no issue,
    and the score 90, as the specification says; [valid_rows] is 0 where
    the specification says 1. *)
Theorem scenario_A_validation :
  let res := fst (validate_dataframe Examples.schemas Examples.people "people" init) in
  total_rows res = 2 /\
  errors res = ["Column name: 1 null values in required field"] /\
  warnings res = [] /\ issues res = [] /\
  data_quality_score res = 90%Z /\
  valid_rows res = 0 /\
  valid_rows res <> 1.
Proof. repeat split; try reflexivity. discriminate. Qed.

(** Scenario A's coerced rows are what the reader makes of its raw rows. *)
Lemma scenario_A_coercion :
  CsvReader.read_csv_file Examples.library Examples.schemas
    (fun _ => Some Examples.people_lines) "people"
  = Ok Examples.people.
Proof. reflexivity. Qed.

(* ------------------------------------------------------------------ *)
(** *** The validator's state *)

(** C9 (as the code has it).  [validate_dataframe] stores its result in
    the validator's [validation_results] under the table name, and changes
    nothing else there; the result it returns does not depend on the
    validator's state, so validating the same table again returns an equal
    result, and validating one table changes neither the result for another
    nor the result stored for another. *)
Theorem validate_records_result_only :
  forall schemas df tname self,
    let res := fst (validate_dataframe schemas df tname self) in
    let self' := snd (validate_dataframe schemas df tname self) in
    validation_results self'
    = dict_set tname res (validation_results self) /\
    dict_get tname (validation_results self') = Some res /\
    (forall other, other <> tname ->
        dict_get other (validation_results self')
        = dict_get other (validation_results self)) /\
    fst (validate_dataframe schemas df tname self') = res /\
    (forall df2 tname2,
        fst (validate_dataframe schemas df2 tname2 self')
        = fst (validate_dataframe schemas df2 tname2 self)).
Proof.
  intros schemas df tname self res self'.
  assert (Hst : validation_results self'
                = dict_set tname res (validation_results self)) by reflexivity.
  split; [exact Hst|].
  split; [rewrite Hst; apply dict_get_set_same|].
  split; [intros other Hne; rewrite Hst; now apply dict_get_set_other|].
  split; [reflexivity|]. intros df2 tname2. reflexivity.
Qed.

(** C9, counterexample.  The summary of a fresh validator counts no
    table; after validating Scenario A's table it counts one, with one
    table in error. *)
Lemma validate_changes_summary :
  let after := snd (validate_dataframe Examples.schemas Examples.people "people" init) in
  tables_validated (get_validation_summary init) = 0 /\
  tables_validated (get_validation_summary after) = 1 /\
  tables_with_errors (get_validation_summary after) = 1 /\
  validation_results after <> validation_results init.
Proof. repeat split; try reflexivity. discriminate. Qed.

End ValidatorClaims.
(* ------------------------------------------------------------------ *)
(** *** Transformation: cleaning and records *)

Section TransformerLemmas.
Import DataTransformer Findings.
Variable lib : Library.

Lemma clean_columns df tname :
  Pandas.columns (_clean_dataframe df tname) = map clean_series (Pandas.columns df).
Proof.
  unfold _clean_dataframe, update_selected. simpl.
  rewrite !map_map. apply map_ext. intros c. reflexivity.
Qed.

Lemma clean_len df tname : len (_clean_dataframe df tname) = len df.
Proof. reflexivity. Qed.

Lemma clean_series_name c : name (clean_series c) = name c.
Proof.
  unfold clean_series.
  repeat match goal with |- context [if ?b then _ else _] => destruct b end;
    reflexivity.
Qed.

Lemma clean_series_dtype c : dtype (clean_series c) = dtype c.
Proof.
  unfold clean_series.
  repeat match goal with |- context [if ?b then _ else _] => destruct b end;
    reflexivity.
Qed.

Lemma clean_column_names df tname :
  column_names (_clean_dataframe df tname) = column_names df.
Proof.
  unfold column_names. rewrite clean_columns, map_map.
  apply map_ext. apply clean_series_name.
Qed.

Lemma convert_to_records_length df tname :
  List.length (_convert_to_records lib df tname) = len df.
Proof. unfold _convert_to_records. now rewrite length_map, length_seq. Qed.

(** The record of row [i]. *)
Lemma convert_to_records_nth df tname i :
  i < len df ->
  nth i (_convert_to_records lib df tname) []
  = fold_left
      (fun record (item : string * value) =>
         dict_set (fst item) (json_of_value (snd item)) record)
      (row_items lib df i) [].
Proof.
  intros Hi. unfold _convert_to_records.
  rewrite (nth_indep _ [] ((fun i => fold_left
           (fun record '(col_name, value) =>
              dict_set col_name (json_of_value value) record)
           (row_items lib df i) []) 0))
    by now rewrite length_map, length_seq.
  rewrite (map_nth (fun i => fold_left
           (fun record '(col_name, value) =>
              dict_set col_name (json_of_value value) record)
           (row_items lib df i) [])).
  rewrite seq_nth by exact Hi. simpl.
  generalize (@nil (string * json)). induction (row_items lib df i) as [|[k v] l IH]; intros d; simpl; auto.
Qed.

Lemma row_items_keys df i : map fst (row_items lib df i) = column_names df.
Proof. unfold row_items, column_names. rewrite map_map. reflexivity. Qed.

Lemma record_shape df tname i :
  NoDup (column_names df) -> i < len df ->
  nth i (_convert_to_records lib df tname) []
  = map (fun c => (name c,
                   json_of_value (cast_cell lib df c (nth i (values c) NA))))
      (Pandas.columns df).
Proof.
  intros Hnd Hi. rewrite convert_to_records_nth by exact Hi.
  rewrite (fold_set_append fst (fun item => json_of_value (snd item))).
  - simpl. unfold row_items. rewrite map_map. reflexivity.
  - simpl. now rewrite row_items_keys.
Qed.

(** C10.  When the library raises nothing, [transform_dataframe] returns
    a table whose [data] has exactly one record per row of the input frame
    and whose [metadata.record_count] is that same number; the recorded
    statistics agree; and with unique column labels the record of row [i]
    holds, in column order, one value for each column of the frame. *)
Theorem transform_preserves_row_count :
  forall library_error df tname self,
    library_error tname = None ->
    exists t self',
      transform_dataframe lib library_error df tname self = (Ok t, self') /\
      List.length (data t) = len df /\
      record_count (metadata t) = List.length (data t) /\
      record_count (metadata t) = len df /\
      dict_get tname (transformation_stats self')
      = Some {| original_rows := len df; transformed_rows := len df;
                stats_columns := column_names df |} /\
      (NoDup (column_names df) ->
       forall i, i < len df ->
                 dict_keys (nth i (data t) []) = column_names df).
Proof.
  intros library_error df tname self Hlib.
  unfold transform_dataframe. rewrite Hlib.
  eexists. eexists. split; [reflexivity|].
  cbn [data metadata transformation_stats].
  change (record_count (_generate_metadata lib ?d ?t)) with (len d).
  rewrite convert_to_records_length, clean_len.
  split; [reflexivity|]. split; [reflexivity|]. split; [reflexivity|].
  split; [apply dict_get_set_same|].
  intros Hnd i Hi.
  rewrite record_shape.
  - unfold dict_keys. rewrite map_map. cbn [fst].
    fold (column_names (_clean_dataframe df tname)). apply clean_column_names.
  - now rewrite clean_column_names.
  - exact Hi.
Qed.

End TransformerLemmas.

Section TransformerExamples.
Import DataTransformer Findings.

Lemma transform_preserves_row_count_people :
  exists t self',
    transform_dataframe Examples.library Examples.no_error
      Examples.people "people" init
    = (Ok t, self') /\
    List.length (data t) = 2 /\ record_count (metadata t) = 2.
Proof.
  destruct (transform_preserves_row_count Examples.library Examples.no_error
              Examples.people
              "people" init eq_refl) as [t [self' [Hrun [Hlen [_ [Hcount _]]]]]].
  exists t, self'. split; [exact Hrun|]. split; [exact Hlen|exact Hcount].
Defined.

End TransformerExamples.

(* ------------------------------------------------------------------ *)
(** *** Missing cells through cleaning and conversion *)

Section CellLemmas.
Import DataTransformer Findings.
Variable lib : Library.

Lemma nth_map_lt {A B} (g : A -> B) (l : list A) i d d' :
  i < List.length l -> nth i (map g l) d' = g (nth i l d).
Proof.
  intros Hi. rewrite (nth_indep _ d' (g d)) by now rewrite length_map.
  apply map_nth.
Qed.

Lemma isna_na_of dt : isna (na_of dt) = true.
Proof. unfold na_of. destruct (scalar_type_of dt) as [[]|]; reflexivity. Qed.

Lemma where_value_missing cond dt v :
  isna v = true -> isna (where_value cond dt v) = true.
Proof.
  intros Hv. unfold where_value. destruct (cond v); [exact Hv|apply isna_na_of].
Qed.

Lemma where_notna_isna dt v :
  isna (where_value notna dt v) = isna v.
Proof.
  unfold where_value, notna. destruct (isna v) eqn:E; simpl; [apply isna_na_of|exact E].
Qed.

Lemma selected_where inc cond s : selected inc (where_ cond s) = selected inc s.
Proof. reflexivity. Qed.

Lemma clean_series_values c :
  values (clean_series c) = map (clean_value c) (values c).
Proof.
  unfold clean_series, clean_value.
  destruct (selected ["Int64"] c); repeat rewrite selected_where;
    destruct (selected ["string"; "object"] c); repeat rewrite selected_where;
    destruct (selected ["float64"] c);
    unfold where_; cbn [values dtype]; rewrite ?map_map;
    first [ apply map_ext; intros v; reflexivity
          | symmetry; apply map_id ].
Qed.


Lemma clean_value_empty_string c :
  selected ["string"; "object"] c = true ->
  isna (clean_value c (VStr EmptyString)) = true.
Proof.
  intros Hs. unfold clean_value. rewrite Hs.
  destruct (selected ["Int64"] c), (selected ["float64"] c);
    cbn [where_value notna isna negb ne_empty String.eqb];
    try apply where_value_missing; apply isna_na_of.
Qed.

Lemma json_of_missing v : isna v = true -> json_of_value v = JNull.
Proof. intros Hv. unfold json_of_value. now rewrite Hv. Qed.

(** A missing cell stays missing under [iterrows]. *)
Lemma cast_cell_missing df c v :
  isna v = true -> cast_cell lib df c v = v.
Proof. intros Hv. unfold cast_cell. now rewrite Hv. Qed.

Lemma json_of_cast_missing df c v :
  isna v = true -> json_of_value (cast_cell lib df c v) = JNull.
Proof.
  intros Hv. rewrite cast_cell_missing by exact Hv. now apply json_of_missing.
Qed.

(** The value a record of the transformed table holds for a cell. *)
Lemma transformed_cell df tname c i :
  wf_frame df -> In c (Pandas.columns df) -> i < len df ->
  dict_get (name c)
    (nth i (_convert_to_records lib (_clean_dataframe df tname) tname) [])
  = Some (json_of_value
            (cast_cell lib (_clean_dataframe df tname) (clean_series c)
               (clean_value c (nth i (values c) NA)))).
Proof.
  intros [Hnd Hlen] Hc Hi.
  assert (Hndc : NoDup (column_names (_clean_dataframe df tname)))
    by now rewrite clean_column_names.
  rewrite record_shape by (assumption || now rewrite clean_len).
  rewrite clean_columns, map_map.
  apply dict_get_In.
  - unfold dict_ok, dict_keys. rewrite map_map. cbn [fst].
    rewrite <- (map_map clean_series name), <- (clean_columns df tname). exact Hndc.
  - apply in_map_iff. exists c. split; [|exact Hc].
    rewrite clean_series_name, clean_series_values. f_equal. f_equal. f_equal.
    apply nth_map_lt. rewrite Forall_forall in Hlen. rewrite (Hlen c Hc). exact Hi.
Qed.

Lemma disjoint_counts {A} (p q : A -> bool) (l : list A) :
  (forall x, p x = true -> q x = false) ->
  List.length (filter p l) + List.length (filter q l) <= List.length l.
Proof.
  intros Hpq. induction l as [|x l IH]; simpl; [lia|].
  destruct (p x) eqn:Hp.
  - rewrite (Hpq x Hp). simpl. lia.
  - destruct (q x); simpl; lia.
Qed.

(** C8.  For a well-formed frame whose table has a schema entry and a
    text column holding [n > 0] empty strings: validation reports them in
    one warning that names the column and [n], and does not count them
    among the column's nulls; transformation turns each such cell into
    JSON null. *)
Theorem empty_strings_warned_then_nulled :
  forall schemas tname sch df col library_error vself tself,
    SchemaReader.get_table_schema schemas tname = Ok sch ->
    wf_frame df ->
    In col (Pandas.columns df) ->
    selected ["string"; "object"] col = true ->
    0 < empty_string_count col ->
    library_error tname = None ->
    let res := fst (DataValidator.validate_dataframe schemas df tname vself) in
    In ("Column " ++ name col ++ ": " ++ str_of_nat (empty_string_count col)
        ++ " empty string values")%string (DataValidator.warnings res) /\
    null_count col + empty_string_count col <= List.length (values col) /\
    (forall v, In v (values col) -> is_empty_string v = true -> isna v = false) /\
    exists t tself',
      transform_dataframe lib library_error df tname tself = (Ok t, tself') /\
      forall i, i < len df ->
                nth i (values col) NA = VStr EmptyString ->
                dict_get (name col) (nth i (data t) []) = Some JNull.
Proof.
  intros schemas tname sch df col library_error vself tself
    Hsch Hwf Hcol Hsel Hn Hlib res.
  assert (Hdisj : forall v, is_empty_string v = true -> isna v = false).
  { intros [| |z|f|s]; simpl; congruence. }
  split; [|split; [|split]].
  - destruct (validate_dataframe_found schemas tname sch Hsch df vself)
      as [n [_ Hrun]].
    subst res. rewrite Hrun. cbn [fst found_results DataValidator.warnings].
    unfold all_warnings. apply in_or_app. right. apply in_flat_map.
    exists col. split.
    + unfold select_dtypes. apply filter_In. now split.
    + unfold empty_string_warning. apply Nat.ltb_lt in Hn. rewrite Hn. now left.
  - unfold null_count, empty_string_count. rewrite Nat.add_comm.
    apply disjoint_counts. exact Hdisj.
  - intros v _. apply Hdisj.
  - unfold transform_dataframe. rewrite Hlib.
    eexists. eexists. split; [reflexivity|]. cbn [data].
    intros i Hi Hcell.
    rewrite transformed_cell by assumption.
    rewrite Hcell. f_equal. apply json_of_cast_missing.
    now apply clean_value_empty_string.
Qed.

End CellLemmas.

Section CellExamples.
Import DataTransformer Findings.

Lemma wf_blanks : wf_frame Examples.blanks.
Proof.
  split.
  - repeat constructor; simpl; intuition discriminate.
  - repeat constructor.
Qed.

Lemma empty_strings_warned_then_nulled_blanks :
  In "Column name: 2 empty string values"
    (DataValidator.warnings
       (fst (DataValidator.validate_dataframe Examples.schemas Examples.blanks
               "people" DataValidator.init))) /\
  exists t tself',
    transform_dataframe Examples.library Examples.no_error
      Examples.blanks "people" init
    = (Ok t, tself') /\
    dict_get "name" (nth 0 (data t) []) = Some JNull /\
    dict_get "name" (nth 2 (data t) []) = Some JNull.
Proof.
  destruct (empty_strings_warned_then_nulled Examples.library
              Examples.schemas "people"
              Examples.people_schema Examples.blanks Examples.names_col
              Examples.no_error DataValidator.init init
              eq_refl wf_blanks (or_intror (or_introl eq_refl)) eq_refl
              (Nat.lt_0_succ 1) eq_refl)
    as [Hwarn [_ [_ [t [tself' [Hrun Hnull]]]]]].
  split; [exact Hwarn|].
  exists t, tself'. split; [exact Hrun|].
  split; apply Hnull; try reflexivity; simpl; lia.
Defined.

End CellExamples.

(* ------------------------------------------------------------------ *)
(** *** Reading: null tokens *)

Section ReaderLemmas.
Import CsvReader DataTransformer Findings.







Section WithParser.
Variable lib : Library.


Lemma records_not_blank rows :
  Forall (fun line => blank_line line = false) (records rows).
Proof.
  apply Forall_forall. intros line Hin. unfold records in Hin.
  apply filter_In in Hin. destruct Hin as [_ Hb].
  now apply negb_true_iff in Hb.
Qed.





End WithParser.

End ReaderLemmas.

(* ------------------------------------------------------------------ *)
(** *** Metadata statistics *)

Section MetadataLemmas.
Import DataTransformer Findings.
Variable lib : Library.

Lemma numeric_not_text c :
  selected ["int64"; "Int64"; "float64"] c = true ->
  selected ["string"; "object"] c = false.
Proof.
  unfold selected. destruct (scalar_type_of (dtype c)) as [[]|]; cbn; congruence.
Qed.

Lemma selected_clean inc c : selected inc (clean_series c) = selected inc c.
Proof. unfold selected. now rewrite clean_series_dtype. Qed.

Lemma clean_value_numeric_isna c v :
  selected ["int64"; "Int64"; "float64"] c = true ->
  isna (clean_value c v) = isna v.
Proof.
  intros Hnum. unfold clean_value. rewrite (numeric_not_text c Hnum).
  destruct (selected ["Int64"] c), (selected ["float64"] c);
    now rewrite ?where_notna_isna.
Qed.

Lemma filter_map_pred {A} (p : A -> bool) (g : A -> A) (l : list A) :
  (forall x, p (g x) = p x) ->
  List.length (filter p (map g l)) = List.length (filter p l) /\
  forallb p (map g l) = forallb p l.
Proof.
  intros H. induction l as [|x l [IH1 IH2]]; simpl; [auto|].
  rewrite H, IH2. split; [|reflexivity]. destruct (p x); simpl; now rewrite IH1.
Qed.

Lemma clean_numeric_nulls c :
  selected ["int64"; "Int64"; "float64"] c = true ->
  null_count (clean_series c) = null_count c /\
  all_na (clean_series c) = all_na c.
Proof.
  intros Hnum. unfold null_count, all_na. rewrite clean_series_values.
  apply filter_map_pred. intros v. now apply clean_value_numeric_isna.
Qed.

Lemma all_na_null_count c :
  all_na c = true -> null_count c = List.length (values c).
Proof.
  unfold all_na, null_count. induction (values c) as [|v l IH]; simpl; [reflexivity|].
  intros H. apply andb_true_iff in H. destruct H as [Hv Hl].
  rewrite Hv. simpl. now rewrite IH.
Qed.

(** The four-field entry of a numeric column that holds some value. *)
Lemma stats_entry df tname col :
  NoDup (column_names df) -> In col (Pandas.columns df) ->
  dict_get (name col) (statistics (_generate_metadata lib df tname))
  = Some (dict_set "null_count" (JInt (Z.of_nat (null_count col)))
            (if selected ["int64"; "Int64"; "float64"] col
                && negb (all_na col)
             then [("min", json_of_value (series_min col));
                   ("max", json_of_value (series_max col));
                   ("mean", json_of_value (series_mean lib col));
                   ("null_count", JInt (Z.of_nat (null_count col)))]
             else [])).
Proof.
  intros Hnd Hcol. unfold _generate_metadata. cbn [statistics].
  pose (full := fun c : Series =>
          [("min", json_of_value (series_min c));
           ("max", json_of_value (series_max c));
           ("mean", json_of_value (series_mean lib c));
           ("null_count", JInt (Z.of_nat (null_count c)))]).
  pose (upd1 := fun (c : Series) (st : dict (dict json)) =>
          if negb (all_na c) then dict_set (name c) (full c) st else st).
  pose (F1 := fun (c : Series) (o : option (dict json)) =>
          if negb (all_na c) then Some (full c) else o).
  pose (upd2 := fun (c : Series) (st : dict (dict json)) =>
          let st := if negb (dict_mem (name c) st)
                    then dict_set (name c) [] st else st in
          let entry := match dict_get (name c) st with
                       | Some e => e
                       | None => []
                       end in
          dict_set (name c)
            (dict_set "null_count" (JInt (Z.of_nat (null_count c))) entry) st).
  pose (F2 := fun (c : Series) (o : option (dict json)) =>
          Some (dict_set "null_count" (JInt (Z.of_nat (null_count c)))
                  (match o with Some e => e | None => [] end))).
  assert (H1o : forall x d k, k <> name x ->
                  dict_get k (upd1 x d) = dict_get k d).
  { intros x d k Hk. unfold upd1. destruct (negb (all_na x)); [|reflexivity].
    now apply dict_get_set_other. }
  assert (H1s : forall x d, dict_get (name x) (upd1 x d)
                            = F1 x (dict_get (name x) d)).
  { intros x d. unfold upd1, F1. destruct (negb (all_na x)); [|reflexivity].
    apply dict_get_set_same. }
  assert (H2o : forall x d k, k <> name x ->
                  dict_get k (upd2 x d) = dict_get k d).
  { intros x d k Hk. unfold upd2. cbv zeta.
    rewrite dict_get_set_other by exact Hk.
    destruct (negb (dict_mem (name x) d)); [|reflexivity].
    now apply dict_get_set_other. }
  assert (H2s : forall x d, dict_get (name x) (upd2 x d)
                            = F2 x (dict_get (name x) d)).
  { intros x d. unfold upd2, F2. cbv zeta. rewrite dict_get_set_same.
    destruct (dict_mem (name x) d) eqn:Hm; cbn [negb].
    - reflexivity.
    - rewrite dict_get_set_same, (dict_mem_get _ _ Hm). reflexivity. }
  etransitivity.
  { apply (fold_update_same name upd2 F2 H2o H2s (Pandas.columns df) _ col Hnd Hcol). }
  unfold F2. f_equal. f_equal.
  destruct (selected ["int64"; "Int64"; "float64"] col) eqn:Hsel; cbn [andb].
  - rewrite (fold_update_same name upd1 F1 H1o H1s).
    + unfold F1. cbn [dict_get]. destruct (negb (all_na col)); reflexivity.
    + now apply filter_keeps_labels_distinct.
    + unfold select_dtypes. apply filter_In. now split.
  - rewrite (fold_update_other name upd1 H1o); [reflexivity|].
    intros Hin. apply in_map_iff in Hin. destruct Hin as [c2 [Hname Hin2]].
    unfold select_dtypes in Hin2. apply filter_In in Hin2. destruct Hin2 as [Hin2 Hsel2].
    assert (c2 = col) by (apply (NoDup_map_inj name (Pandas.columns df)); assumption).
    subst c2. congruence.
Qed.

(** C5 (as the code has it).  When the library raises nothing and the
    column labels are unique, [transform_dataframe] returns a table whose
    statistics hold an entry for every column, with its [null_count]; the
    entry of a numeric column that is entirely null holds nothing but
    [null_count] (no [min], [max] or [mean] field); the entry of a numeric
    column that holds some value has the three fields; the entry of any
    other column holds nothing but [null_count]. *)
Theorem statistics_of_null_columns :
  forall library_error df tname self,
    library_error tname = None ->
    NoDup (column_names df) ->
    exists t self',
      transform_dataframe lib library_error df tname self = (Ok t, self') /\
      forall col, In col (Pandas.columns df) ->
        exists entry,
          dict_get (name col) (statistics (metadata t)) = Some entry /\
          dict_get "null_count" entry
          = Some (JInt (Z.of_nat (null_count (clean_series col)))) /\
          (selected ["int64"; "Int64"; "float64"] col = true ->
           all_na col = true ->
           entry = [("null_count", JInt (Z.of_nat (List.length (values col))))] /\
           dict_get "min" entry = None /\
           dict_get "max" entry = None /\
           dict_get "mean" entry = None) /\
          (selected ["int64"; "Int64"; "float64"] col = true ->
           all_na col = false ->
           dict_get "min" entry
           = Some (json_of_value (series_min (clean_series col))) /\
           dict_get "max" entry
           = Some (json_of_value (series_max (clean_series col))) /\
           dict_get "mean" entry
           = Some (json_of_value (series_mean lib (clean_series col)))) /\
          (selected ["int64"; "Int64"; "float64"] col = false ->
           entry = null_count_only (clean_series col)).
Proof.
  intros library_error df tname self Hlib Hnd.
  unfold transform_dataframe. rewrite Hlib.
  eexists. eexists. split; [reflexivity|]. cbn [metadata].
  intros col Hcol.
  assert (Hndc : NoDup (column_names (_clean_dataframe df tname)))
    by now rewrite clean_column_names.
  assert (Hcolc : In (clean_series col) (Pandas.columns (_clean_dataframe df tname)))
    by (rewrite clean_columns; now apply in_map).
  pose proof (stats_entry _ tname _ Hndc Hcolc) as Hentry.
  rewrite clean_series_name, selected_clean in Hentry.
  eexists. split; [exact Hentry|].
  destruct (selected ["int64"; "Int64"; "float64"] col) eqn:Hsel; cbn [andb].
  - destruct (clean_numeric_nulls col Hsel) as [Hnc Hall]. rewrite Hall.
    destruct (all_na col) eqn:Hna; cbn [negb].
    + split; [reflexivity|]. split; [|split; [discriminate|discriminate]].
      intros _ _. rewrite Hnc, (all_na_null_count col Hna).
      repeat split.
    + split; [reflexivity|]. split; [discriminate|]. split; [|discriminate].
      intros _ _. repeat split.
  - split; [reflexivity|]. split; [discriminate|]. split; [discriminate|].
    intros _. reflexivity.
Qed.

End MetadataLemmas.

Section MetadataExamples.
Import DataTransformer Findings.

Lemma statistics_of_null_columns_hollow :
  exists t self',
    transform_dataframe Examples.library Examples.no_error
      Examples.hollow "stock" init
    = (Ok t, self') /\
    exists entry,
      dict_get "qty" (statistics (metadata t)) = Some entry /\
      entry = [("null_count", JInt 2)] /\
      dict_get "min" entry = None.
Proof.
  assert (Hnd : NoDup (column_names Examples.hollow))
    by (repeat constructor; simpl; intuition discriminate).
  destruct (statistics_of_null_columns Examples.library Examples.no_error Examples.hollow
              "stock" init eq_refl Hnd) as [t [self' [Hrun Hcols]]].
  exists t, self'. split; [exact Hrun|].
  destruct (Hcols Examples.qty_col (or_intror (or_introl eq_refl)))
    as [entry [Hget [_ [Hnull _]]]].
  exists entry. split; [exact Hget|].
  destruct (Hnull eq_refl eq_refl) as [He [Hmin _]].
  split; [exact He|exact Hmin].
Defined.

(** C5, counterexample.  In a table whose integer column [qty] and float
    column [price] are entirely null, the statistics entries of both carry
    the null count and nothing else: [min] is not a null-valued field, it is
    absent. *)
Lemma all_null_numeric_column_has_no_min_max_mean :
  exists t self',
    transform_dataframe Examples.library Examples.no_error
      Examples.hollow "stock" init
    = (Ok t, self') /\
    selected ["int64"; "Int64"; "float64"] Examples.qty_col = true /\
    all_na Examples.qty_col = true /\
    dict_get "qty" (statistics (metadata t)) = Some [("null_count", JInt 2)] /\
    dict_get "price" (statistics (metadata t)) = Some [("null_count", JInt 2)] /\
    (forall entry, dict_get "qty" (statistics (metadata t)) = Some entry ->
                   dict_get "min" entry <> Some JNull).
Proof.
  eexists. eexists. split; [reflexivity|].
  split; [reflexivity|]. split; [reflexivity|].
  split; [reflexivity|]. split; [reflexivity|].
  intros entry H. vm_compute in H. inversion H; subst. discriminate.
Qed.

End MetadataExamples.

(* ------------------------------------------------------------------ *)
(** *** The combined dataset *)

Section CombinedLemmas.
Import DataTransformer.
Variable lib : Library.

Lemma dict_set_ok {V} k (v : V) d : dict_ok d -> dict_ok (dict_set k v d).
Proof.
  unfold dict_ok, dict_keys.
  induction d as [|[k' v'] d IH]; simpl; intros Hnd.
  - constructor; [intros []|constructor].
  - inversion Hnd as [|? ? Hk Hnd']; subst.
    destruct (String.eqb k' k) eqn:E; simpl.
    + apply String.eqb_eq in E. subst. now constructor.
    + constructor; [|now apply IH].
      intros Hin. apply in_map_iff in Hin. destruct Hin as [[k2 v2] [Hfst Hin]].
      simpl in Hfst. subst k2.
      assert (Hor : (k', v2) = (k, v) \/ In (k', v2) d).
      { clear - Hin. induction d as [|[k0 v0] d IH]; simpl in *.
        - destruct Hin as [H|[]]. left. now symmetry.
        - destruct (String.eqb k0 k); simpl in Hin.
          + destruct Hin as [H|H]; [left; now symmetry|right; now right].
          + destruct Hin as [H|H]; [right; now left|].
            destruct (IH H); [now left|right; now right]. }
      destruct Hor as [Heq|Hin'].
      * inversion Heq; subst. rewrite String.eqb_refl in E. discriminate.
      * apply Hk. change k' with (fst (k', v2)). now apply in_map.
Qed.

Lemma dict_set_length {V} k (v : V) d :
  List.length (dict_set k v d) <= S (List.length d).
Proof.
  induction d as [|[k' v'] d IH]; simpl; [lia|].
  destruct (String.eqb k' k); simpl; lia.
Qed.

Lemma dict_set_Forall {V} (P : string * V -> Prop) k v d :
  P (k, v) -> Forall P d -> Forall P (dict_set k v d).
Proof.
  intros Hkv. induction d as [|[k' v'] d IH]; simpl; intros H.
  - now constructor.
  - inversion H; subst. destruct (String.eqb k' k); constructor; auto.
Qed.

(** What the loop of [create_combined_dataset] leaves in its accumulator. *)
Lemma combined_loop (td : dict Transformed) :
  forall c0,
    let c :=
      fold_left
        (fun combined '(tname, table_data) =>
           let record_count := List.length (data table_data) in
           let md := combined_metadata combined in
           {| combined_metadata :=
                {| dataset_name := dataset_name md;
                   table_count := table_count md;
                   total_records := total_records md + record_count;
                   tables_info :=
                     dict_set tname
                       {| info_record_count := record_count;
                          info_columns := columns (metadata table_data) |}
                       (tables_info md) |};
              tables := dict_set tname (data table_data) (tables combined) |})
        td c0 in
    table_count (combined_metadata c) = table_count (combined_metadata c0) /\
    total_records (combined_metadata c)
    = total_records (combined_metadata c0)
      + list_sum (map (fun kv => List.length (data (snd kv))) td) /\
    tables_info (combined_metadata c)
    = fold_left
        (fun d kv =>
           dict_set (fst kv)
             {| info_record_count := List.length (data (snd kv));
                info_columns := columns (metadata (snd kv)) |} d)
        td (tables_info (combined_metadata c0)) /\
    tables c
    = fold_left (fun d kv => dict_set (fst kv) (data (snd kv)) d) td (tables c0).
Proof.
  induction td as [|[k t] td IH]; intros c0; cbn zeta.
  - simpl. repeat split. lia.
  - cbn [fold_left]. specialize (IH
      {| combined_metadata :=
           {| dataset_name := dataset_name (combined_metadata c0);
              table_count := table_count (combined_metadata c0);
              total_records :=
                total_records (combined_metadata c0) + List.length (data t);
              tables_info :=
                dict_set k
                  {| info_record_count := List.length (data t);
                     info_columns := columns (metadata t) |}
                  (tables_info (combined_metadata c0)) |};
         tables := dict_set k (data t) (tables c0) |}).
    cbn zeta in IH. destruct IH as [H1 [H2 [H3 H4]]].
    split; [exact H1|]. split; [|split; [exact H3|exact H4]].
    rewrite H2. cbn [combined_metadata total_records map snd].
    change (list_sum (?x :: ?l)) with (x + list_sum l). lia.
Qed.

(** C6.  For a dictionary of transformed tables, each carrying as its
    [record_count] the number of its records: the combined dataset's
    [total_records] is the sum of the tables' record counts, which is also
    the sum of the counts it lists per table, and [table_count] is the
    number of tables combined, which is also the number of tables it holds. *)
Theorem combine_additivity :
  forall td : dict Transformed,
    dict_ok td ->
    Forall (fun kv => record_count (metadata (snd kv))
                      = List.length (data (snd kv))) td ->
    let c := create_combined_dataset td in
    table_count (combined_metadata c) = List.length td /\
    total_records (combined_metadata c)
    = list_sum (map (fun kv => record_count (metadata (snd kv))) td) /\
    total_records (combined_metadata c)
    = list_sum (map (fun kv => info_record_count (snd kv))
                  (tables_info (combined_metadata c))) /\
    dict_keys (tables_info (combined_metadata c)) = dict_keys td /\
    List.length (tables c) = List.length td.
Proof.
  intros td Hok Hcount c.
  destruct (combined_loop td
              {| combined_metadata :=
                   {| dataset_name := "retail_db_combined";
                      table_count := List.length td;
                      total_records := 0;
                      tables_info := [] |};
                 tables := [] |}) as [H1 [H2 [H3 H4]]].
  subst c. unfold create_combined_dataset.
  cbn [combined_metadata table_count total_records tables_info tables] in *.
  rewrite fold_set_append in H3 by exact Hok.
  rewrite fold_set_append in H4 by exact Hok.
  cbn [app] in H3, H4.
  split; [exact H1|]. split; [|split; [|split]].
  - rewrite H2. cbn [Nat.add]. f_equal. apply map_ext_in.
    intros kv Hin. rewrite Forall_forall in Hcount. symmetry. now apply Hcount.
  - rewrite H2, H3, map_map. reflexivity.
  - rewrite H3. unfold dict_keys. rewrite map_map. reflexivity.
  - rewrite H4. apply length_map.
Qed.


End CombinedLemmas.

Section CombinedExamples.
Import DataTransformer.

(** Scenario C: tables of 3 and 5 records combine to 8 records in 2
    tables. *)
Lemma combine_additivity_three_and_five :
  let c := create_combined_dataset Examples.three_and_five in
  map (fun kv => (fst kv, record_count (metadata (snd kv)))) Examples.three_and_five
  = [("a", 3); ("b", 5)] /\
  total_records (combined_metadata c) = 8 /\
  table_count (combined_metadata c) = 2.
Proof.
  assert (Hok : dict_ok Examples.three_and_five)
    by (repeat constructor; simpl; intuition discriminate).
  assert (Hcount : Forall (fun kv => record_count (metadata (snd kv))
                                     = List.length (data (snd kv)))
                     Examples.three_and_five)
    by (repeat constructor).
  destruct (combine_additivity Examples.three_and_five Hok Hcount)
    as [Htables [Htotal _]].
  split; [reflexivity|]. split.
  - rewrite Htotal. reflexivity.
  - rewrite Htables. reflexivity.
Defined.

End CombinedExamples.

(* ------------------------------------------------------------------ *)
(** *** The run *)

Section RunLemmas.
Import Main.

Lemma truthy_nonempty {A} (l : list A) : l <> [] -> truthy l = true.
Proof. destruct l; [congruence|reflexivity]. Qed.



Lemma validate_data_keeps schemas raw self :
  data_transformer (snd (_validate_data schemas raw self)) = data_transformer self /\
  json_writer (snd (_validate_data schemas raw self)) = json_writer self.
Proof.
  unfold _validate_data. destruct (fold_left _ raw _) as [vr v]. split; reflexivity.
Qed.

Lemma dict_set_nonempty {V} k (v : V) d : dict_set k v d <> [].
Proof.
  destruct d as [|[k' v'] d]; simpl; [discriminate|].
  destruct (String.eqb k' k); discriminate.
Qed.







End RunLemmas.

(* ================================================================== *)
(** * Further properties of the sources *)

(* ------------------------------------------------------------------ *)
(** *** Schema reader *)

Section SchemaProperties.
Import SchemaReader Order.

Lemma insert_by_position_perm x l :
  Permutation (insert_by_position x l) (x :: l).
Proof.
  induction l as [|y l IH]; simpl; [reflexivity|].
  destruct (position_of x <=? position_of y)%Z; [reflexivity|].
  rewrite IH. apply perm_swap.
Qed.

Lemma sorted_by_position_perm l : Permutation (sorted_by_position l) l.
Proof.
  induction l as [|x l IH]; simpl; [constructor|].
  rewrite insert_by_position_perm. now constructor.
Qed.

Lemma insert_by_position_sorted x l :
  StronglySorted by_position l ->
  StronglySorted by_position (insert_by_position x l).
Proof.
  induction 1 as [|y l Hl IH Hy]; simpl.
  - repeat constructor.
  - destruct (position_of x <=? position_of y)%Z eqn:E.
    + apply Z.leb_le in E. constructor; [now constructor|].
      constructor; [exact E|].
      eapply Forall_impl; [|exact Hy]. unfold by_position. intros z Hz. lia.
    + apply Z.leb_gt in E. constructor; [exact IH|].
      apply (Permutation_Forall (Permutation_sym (insert_by_position_perm x l))).
      constructor; [unfold by_position; lia|exact Hy].
Qed.

Lemma sorted_by_position_sorted l :
  StronglySorted by_position (sorted_by_position l).
Proof.
  induction l as [|x l IH]; simpl; [constructor|].
  now apply insert_by_position_sorted.
Qed.

Lemma sorted_by_position_fixes l :
  StronglySorted by_position l -> sorted_by_position l = l.
Proof.
  induction 1 as [|y l Hl IH Hy]; simpl; [reflexivity|].
  rewrite IH. destruct l as [|z l]; [reflexivity|]. simpl.
  inversion Hy as [|? ? Hyz _]; subst. unfold by_position in Hyz.
  apply Z.leb_le in Hyz. now rewrite Hyz.
Qed.

(** X1.  For a registered table, [get_column_names] returns the keys of
    the schema's columns rearranged so that positions never decrease (a
    column without a position counts as position 0); a schema whose columns
    are already listed in that order, ties included, keeps its order. *)
Theorem column_names_in_position_order :
  forall schemas tname sch,
    get_table_schema schemas tname = Ok sch ->
    exists items,
      get_column_names schemas tname = Ok (map fst items) /\
      Permutation items (columns_of sch) /\
      StronglySorted by_position items /\
      (StronglySorted by_position (columns_of sch) ->
       items = columns_of sch).
Proof.
  intros schemas tname sch Hsch.
  exists (sorted_by_position (columns_of sch)).
  unfold get_column_names. rewrite Hsch. cbn [bind].
  split; [reflexivity|].
  split; [apply sorted_by_position_perm|].
  split; [apply sorted_by_position_sorted|apply sorted_by_position_fixes].
Qed.

Lemma mapM_unit_ok {A} (f : A -> result unit) (l : list A) :
  (exists bs, mapM f l = Ok bs) <-> Forall (fun a => f a = Ok tt) l.
Proof.
  split.
  - induction l as [|a l IH]; intros [bs H]; [constructor|].
    simpl in H. destruct (f a) as [[]|e] eqn:Ha; [|discriminate].
    destruct (mapM f l) as [bs'|e]; [|discriminate].
    constructor; [exact Ha|]. apply IH. eauto.
  - induction 1 as [|a l Ha Hl [bs Hbs]]; simpl; [eauto|].
    rewrite Ha, Hbs. eauto.
Qed.

(** X2.  [validate_schema] accepts a table exactly when the table is
    registered, its [columns] key is present and not empty, and every
    column has both a type and a position; it never returns false, and for
    an unregistered table it raises the reader's [KeyError]. *)
Theorem validate_schema_accepts_iff :
  forall schemas tname,
    (validate_schema schemas tname = Ok true <->
     exists sch cols,
       dict_get tname schemas = Some sch /\
       ts_columns sch = Some cols /\ cols <> [] /\
       Forall (fun item => cc_type (snd item) <> None /\
                           cc_position (snd item) <> None) cols) /\
    (forall b, validate_schema schemas tname = Ok b -> b = true) /\
    (dict_get tname schemas = None ->
     validate_schema schemas tname
     = Raise (KeyError ("Schema not found for table: " ++ tname))).
Proof.
  intros schemas tname. unfold validate_schema, get_table_schema.
  destruct (dict_get tname schemas) as [sch|]; cbn [bind].
  2:{ split; [|split]; [split|..]; try discriminate; [|reflexivity].
      intros [sch [cols [H _]]]. discriminate. }
  destruct (ts_columns sch) as [cols|] eqn:Hcols.
  2:{ split; [|split]; [split|..]; try discriminate.
      intros [sch' [cols [H [H' _]]]]. inversion H; subst. congruence. }
  destruct cols as [|item cols].
  { split; [|split]; [split|..]; try discriminate.
    intros [sch' [cols [H [H' [Hne _]]]]]. inversion H; subst.
    rewrite Hcols in H'. inversion H'; subst. congruence. }
  set (check := fun '(col_name, col_config) =>
                  match cc_type col_config, cc_position col_config with
                  | None, _ =>
                      Raise (ValueError ("Missing type for column " ++ col_name
                                         ++ " in table " ++ tname))
                  | Some _, None =>
                      Raise (ValueError ("Missing position for column " ++ col_name
                                         ++ " in table " ++ tname))
                  | Some _, Some _ => Ok tt
                  end).
  assert (Hcheck : forall it : string * ColumnConfig,
             check it = Ok tt <->
             cc_type (snd it) <> None /\ cc_position (snd it) <> None).
  { intros [c cfg]. unfold check. cbn [snd].
    destruct (cc_type cfg), (cc_position cfg); split; intros H;
      try discriminate; try reflexivity; try (split; discriminate);
      destruct H; congruence. }
  pose proof (mapM_unit_ok check (item :: cols)) as Hm.
  destruct (mapM check (item :: cols)) as [bs|e] eqn:Hrun; cbn [bind].
  - split; [|split]; [split|..]; try discriminate.
    + intros _. exists sch, (item :: cols).
      split; [reflexivity|]. split; [exact Hcols|]. split; [discriminate|].
      assert (Hall : Forall (fun a => check a = Ok tt) (item :: cols))
        by (apply Hm; eauto).
      eapply Forall_impl; [|exact Hall]. intros it. apply Hcheck.
    + reflexivity.
    + intros b Hb. now inversion Hb.
  - split; [|split]; [split|..]; try discriminate.
    intros [sch' [cols' [H [H' [_ Hall]]]]]. inversion H; subst.
    rewrite Hcols in H'. inversion H'; subst.
    assert (Hex : exists bs : list unit, Raise e = Ok bs).
    { apply Hm. eapply Forall_impl; [|exact Hall]. intros it. apply Hcheck. }
    destruct Hex as [bs Hbs]. discriminate.
Qed.

Lemma dict_get_Some_In {V} k (v : V) d : dict_get k d = Some v -> In (k, v) d.
Proof.
  induction d as [|[k' v'] d IH]; simpl; [discriminate|].
  destruct (String.eqb k' k) eqn:E.
  - apply String.eqb_eq in E. intros H. inversion H; subst. now left.
  - intros H. right. now apply IH.
Qed.


(** The dtypes dictionary of a schema entry. *)
Lemma schema_dtypes_spec sch :
  dict_ok (Findings.schema_dtypes sch) /\
  (forall c dt, dict_get c (Findings.schema_dtypes sch) = Some dt ->
                dt = "Int64" \/ dt = "float64" \/ dt = "string") /\
  (dict_ok (columns_of sch) ->
   forall c cfg, In (c, cfg) (columns_of sch) ->
                 dict_get c (Findings.schema_dtypes sch)
                 = Some (pandas_dtype_of cfg)) /\
  (forall c, ~ In c (dict_keys (columns_of sch)) ->
             dict_get c (Findings.schema_dtypes sch) = None).
Proof.
  unfold Findings.schema_dtypes.
  pose (upd := fun (x : string * ColumnConfig) (d : dict string) =>
                 let '(col_name, col_config) := x in
                 dict_set col_name (pandas_dtype_of col_config) d).
  assert (Ho : forall x d k, k <> fst x -> dict_get k (upd x d) = dict_get k d).
  { intros [c cfg] d k Hk. now apply dict_get_set_other. }
  assert (Hs : forall x d, dict_get (fst x) (upd x d)
                           = (fun x _ => Some (pandas_dtype_of (snd x))) x
                               (dict_get (fst x) d)).
  { intros [c cfg] d. apply dict_get_set_same. }
  assert (Hinv : forall l d,
             dict_ok d ->
             Forall (fun kv => snd kv = "Int64" \/ snd kv = "float64"
                               \/ snd kv = "string") d ->
             let d' := fold_left (fun d x => upd x d) l d in
             dict_ok d' /\
             Forall (fun kv => snd kv = "Int64" \/ snd kv = "float64"
                               \/ snd kv = "string") d').
  { induction l as [|[c cfg] l IH]; intros d Hok Hall; cbn zeta; [now split|].
    cbn [fold_left]. apply IH.
    - now apply dict_set_ok.
    - apply dict_set_Forall; [|exact Hall]. cbn [snd].
      unfold pandas_dtype_of.
      repeat match goal with |- context [if ?b then _ else _] => destruct b end;
        tauto. }
  destruct (Hinv (columns_of sch) [] (NoDup_nil _) (Forall_nil _)) as [Hok Hall].
  split; [exact Hok|]. split; [|split].
  - intros c dt Hget. apply dict_get_Some_In in Hget.
    rewrite Forall_forall in Hall. exact (Hall _ Hget).
  - intros Hsok c cfg Hin.
    exact (fold_update_same fst upd _ Ho Hs (columns_of sch) [] (c, cfg) Hsok Hin).
  - intros c Hc.
    exact (fold_update_other fst upd Ho (columns_of sch) [] c Hc).
Qed.

(** X3.  For a registered table, [get_pandas_dtypes] returns a
    dictionary over the schema's column names in which every dtype is
    [Int64], [float64] or [string] (a missing or unknown schema type maps to
    [string]); a column of a schema without repeated names gets the dtype
    of its own entry, and a name that is no column gets none. *)
Theorem pandas_dtypes_of_schema :
  forall schemas tname sch,
    get_table_schema schemas tname = Ok sch ->
    exists dtypes,
      get_pandas_dtypes schemas tname = Ok dtypes /\
      dict_ok dtypes /\
      (forall c dt, dict_get c dtypes = Some dt ->
                    dt = "Int64" \/ dt = "float64" \/ dt = "string") /\
      (dict_ok (columns_of sch) ->
       forall c cfg, In (c, cfg) (columns_of sch) ->
                     dict_get c dtypes = Some (pandas_dtype_of cfg)) /\
      (forall c, ~ In c (dict_keys (columns_of sch)) ->
                 dict_get c dtypes = None).
Proof.
  intros schemas tname sch Hsch. unfold get_pandas_dtypes. rewrite Hsch. cbn [bind].
  exists (Findings.schema_dtypes sch). split; [reflexivity|].
  apply schema_dtypes_spec.
Qed.

End SchemaProperties.

(* ------------------------------------------------------------------ *)
(** *** CSV reader *)

Section ReaderProperties.
Import SchemaReader CsvReader.
Variable lib : Library.







End ReaderProperties.

Section ReaderExamples.
Import SchemaReader CsvReader.



End ReaderExamples.

Section ReaderProperties2.
Import SchemaReader CsvReader.
Variable lib : Library.


(** X6.  With table names registered once each, [read_all_tables]
    holds exactly the registered tables whose [read_csv_file] returned a
    frame, each under its name with that frame; a table whose read raised is
    absent and costs the others nothing. *)
Theorem read_all_tables_lookup :
  forall schemas files,
    dict_ok schemas ->
    let all_data := read_all_tables lib schemas files in
    dict_ok all_data /\
    (forall tname df,
        dict_get tname all_data = Some df <->
        In tname (get_available_tables schemas) /\
        read_csv_file lib schemas files tname = Ok df).
Proof.
  intros schemas files Hok all_data. subst all_data. unfold read_all_tables.
  pose (upd := fun (t : string) (d : dict DataFrame) =>
                 match read_csv_file lib schemas files t with
                 | Ok df => dict_set t df d
                 | Raise _ => d
                 end).
  pose (F := fun (t : string) (o : option DataFrame) =>
               match read_csv_file lib schemas files t with
               | Ok df => Some df
               | Raise _ => o
               end).
  assert (Ho : forall x d k, k <> (fun t : string => t) x ->
                             dict_get k (upd x d) = dict_get k d).
  { intros x d k Hk. unfold upd.
    destruct (read_csv_file lib schemas files x); [|reflexivity].
    now apply dict_get_set_other. }
  assert (Hs : forall x d, dict_get ((fun t : string => t) x) (upd x d)
                           = F x (dict_get ((fun t : string => t) x) d)).
  { intros x d. unfold upd, F.
    destruct (read_csv_file lib schemas files x); [|reflexivity].
    apply dict_get_set_same. }
  split.
  - assert (Hgen : forall l d, dict_ok d ->
               dict_ok (fold_left (fun d x => upd x d) l d)).
    { induction l as [|t l IH]; intros d Hd; [exact Hd|].
      cbn [fold_left]. apply IH. unfold upd.
      destruct (read_csv_file lib schemas files t); [|exact Hd].
      now apply dict_set_ok. }
    apply (Hgen _ [] (NoDup_nil _)).
  - intros tname df.
    assert (Hkeys : NoDup (map (fun t : string => t) (get_available_tables schemas)))
      by (rewrite map_id; exact Hok).
    split.
    + intros Hget.
      destruct (in_dec string_dec tname (get_available_tables schemas)) as [Hin|Hout].
      * split; [exact Hin|].
        pose proof (fold_update_same (fun t : string => t) upd F Ho Hs
                      (get_available_tables schemas) [] tname Hkeys Hin) as Hl.
        cbv beta in Hl. change (fold_left (fun d x => upd x d)) with
          (fold_left (fun all_data table_name =>
             match read_csv_file lib schemas files table_name with
             | Ok df => dict_set table_name df all_data
             | Raise _ => all_data
             end)) in Hl.
        rewrite Hget in Hl. unfold F in Hl. cbn [dict_get] in Hl.
        destruct (read_csv_file lib schemas files tname); congruence.
      * pose proof (fold_update_other (fun t : string => t) upd Ho
                      (get_available_tables schemas) [] tname) as Hl.
        rewrite map_id in Hl. specialize (Hl Hout). cbn [dict_get] in Hl.
        change (fold_left (fun d x => upd x d)) with
          (fold_left (fun all_data table_name =>
             match read_csv_file lib schemas files table_name with
             | Ok df => dict_set table_name df all_data
             | Raise _ => all_data
             end)) in Hl.
        congruence.
    + intros [Hin Hread].
      pose proof (fold_update_same (fun t : string => t) upd F Ho Hs
                    (get_available_tables schemas) [] tname Hkeys Hin) as Hl.
      cbv beta in Hl. unfold F in Hl. rewrite Hread in Hl. exact Hl.
Qed.

End ReaderProperties2.

(* ------------------------------------------------------------------ *)
(** *** Reading, then validating *)

Section FreshTables.
Import SchemaReader CsvReader DataValidator Findings.
Variable lib : Library.










End FreshTables.

(* ------------------------------------------------------------------ *)
(** *** Validator: unknown tables and the summary *)

Section ValidatorProperties.
Import DataValidator Findings.

Lemma repr_char_plain c :
  Text.plain_char c = true -> repr_char "'"%char c = String c EmptyString.
Proof.
  unfold Text.plain_char, repr_char. intros H.
  apply andb_true_iff in H. destruct H as [H Hb].
  apply andb_true_iff in H. destruct H as [Hp Hq].
  apply negb_true_iff in Hb, Hq. rewrite Hq, Hb, Hp. cbn [orb].
  assert (Hn : 32 <= nat_of_ascii c).
  { unfold printable in Hp. apply orb_true_iff in Hp.
    destruct Hp as [Hp|Hp]; apply andb_true_iff in Hp; destruct Hp as [Hp _];
      apply Nat.leb_le in Hp; lia. }
  destruct (Nat.eqb_spec (nat_of_ascii c) 9); [lia|].
  destruct (Nat.eqb_spec (nat_of_ascii c) 10); [lia|].
  destruct (Nat.eqb_spec (nat_of_ascii c) 13); [lia|].
  reflexivity.
Qed.

Lemma plain_app s t :
  Text.plain s = true -> Text.plain t = true -> Text.plain (s ++ t) = true.
Proof.
  intros Hs Ht. induction s as [|c s IH]; [exact Ht|].
  cbn [Text.plain append] in *. apply andb_true_iff in Hs.
  destruct Hs as [Hc Hs]. now rewrite Hc, IH.
Qed.

(** [repr] of a plain string is the string between single quotes. *)
Lemma repr_plain s :
  Text.plain s = true -> repr_str s = ("'" ++ s ++ "'")%string.
Proof.
  intros H. unfold repr_str.
  assert (Hq : contains "'"%char s = false).
  { induction s as [|c s IH]; [reflexivity|].
    cbn [Text.plain contains] in *. apply andb_true_iff in H.
    destruct H as [Hc Hs]. rewrite (IH Hs), orb_false_r.
    unfold Text.plain_char in Hc. apply andb_true_iff in Hc.
    destruct Hc as [Hc _]. apply andb_true_iff in Hc. destruct Hc as [_ Hc].
    now apply negb_true_iff in Hc. }
  rewrite Hq. cbn [andb append]. f_equal.
  induction s as [|c s IH]; [reflexivity|].
  cbn [Text.plain contains repr_body append] in *.
  apply andb_true_iff in H. destruct H as [Hc Hs].
  apply orb_false_iff in Hq. destruct Hq as [_ Hq].
  rewrite (repr_char_plain c Hc). cbn [append]. f_equal. now apply IH.
Qed.

(** X9.  Validating a table that has no schema entry does not raise: the
    result carries the single error that the validation process failed with
    the reader's key error, printed as [repr] prints its message (for a
    name without quote, backslash or unprintable character: the message
    between single quotes), no warning and no issue, the score 0 (the score
    is not computed) and [valid_rows] 0, and it is stored like any other. *)
Theorem unknown_table_validation :
  forall schemas df tname self,
    dict_get tname schemas = None ->
    let res := fst (validate_dataframe schemas df tname self) in
    res = {| table_name := tname; total_rows := len df; valid_rows := 0;
             issues := []; warnings := [];
             errors := [("Validation process failed: "
                         ++ repr_str ("Schema not found for table: " ++ tname))
                        %string];
             data_quality_score := 0 |} /\
    (Text.plain tname = true ->
     errors res
     = [("Validation process failed: 'Schema not found for table: "
         ++ tname ++ "'")%string]) /\
    dict_get tname
      (validation_results (snd (validate_dataframe schemas df tname self)))
    = Some res.
Proof.
  intros schemas df tname self H res. subst res.
  split; [|split].
  - rewrite (validate_dataframe_unknown _ _ _ _ H). reflexivity.
  - intros Hplain. rewrite (validate_dataframe_unknown _ _ _ _ H).
    cbn [fst errors].
    rewrite repr_plain by (apply plain_app; [reflexivity|exact Hplain]).
    reflexivity.
  - apply dict_get_set_same.
Qed.

Lemma mask_fold_length df (req : list string) :
  forall m,
    List.length
      (fold_left
         (fun mask col_name =>
            match get_col df col_name with
            | Some col => mask_and_notna mask col
            | None => mask
            end) req m) <= List.length m.
Proof.
  induction req as [|c req IH]; intros m; simpl; [lia|].
  etransitivity; [apply IH|].
  destruct (get_col df c); [|lia].
  unfold mask_and_notna. rewrite length_map, length_combine. lia.
Qed.

Lemma count_valid_rows_le schemas df tname r n :
  _count_valid_rows schemas df tname r = Ok n -> n <= len df.
Proof.
  unfold _count_valid_rows. destruct (errors r).
  - destruct (SchemaReader.get_required_columns schemas tname) as [req|e];
      [|discriminate].
    cbn [bind]. intros H. inversion H; subst.
    etransitivity; [apply filter_length_le|].
    etransitivity; [apply mask_fold_length|]. now rewrite repeat_length.
  - intros H. inversion H. lia.
Qed.

(** Every result has its score in [0, 100] and no more valid rows than
    rows. *)
Lemma validate_result_sound schemas df tname self :
  let res := fst (validate_dataframe schemas df tname self) in
  (0 <= data_quality_score res <= 100)%Z /\ valid_rows res <= total_rows res.
Proof.
  cbv zeta. destruct (dict_get tname schemas) as [sch|] eqn:Hd.
  - assert (Hsch : SchemaReader.get_table_schema schemas tname = Ok sch)
      by (unfold SchemaReader.get_table_schema; now rewrite Hd).
    destruct (validate_dataframe_found schemas tname sch Hsch df self)
      as [n [Hn Hrun]].
    rewrite Hrun. cbn [fst found_results data_quality_score valid_rows total_rows].
    split; [lia|]. now apply (count_valid_rows_le _ _ _ _ _ Hn).
  - rewrite (validate_dataframe_unknown _ _ _ _ Hd).
    cbn [data_quality_score valid_rows total_rows]. split; lia.
Qed.

Lemma summary_loop (l : dict Results) :
  Forall (fun kv => (0 <= data_quality_score (snd kv) <= 100)%Z /\
                    valid_rows (snd kv) <= total_rows (snd kv)) l ->
  forall s0,
    let s :=
      fold_left
        (fun summary '(_, results) =>
           {| tables_validated := tables_validated summary;
              score_total := (score_total summary + data_quality_score results)%Z;
              total_rows_sum := total_rows_sum summary + total_rows results;
              total_valid_rows := total_valid_rows summary + valid_rows results;
              tables_with_errors :=
                tables_with_errors summary
                + (if truthy (errors results) then 1 else 0);
              tables_with_warnings :=
                tables_with_warnings summary
                + (if truthy (warnings results) then 1 else 0) |})
        l s0 in
    tables_validated s = tables_validated s0 /\
    (score_total s0 <= score_total s
     <= score_total s0 + 100 * Z.of_nat (List.length l))%Z /\
    total_valid_rows s + total_rows_sum s0
    <= total_rows_sum s + total_valid_rows s0 /\
    tables_with_errors s <= tables_with_errors s0 + List.length l /\
    tables_with_warnings s <= tables_with_warnings s0 + List.length l.
Proof.
  induction 1 as [|[k r] l [Hscore Hrows] _ IH]; intros s0; cbv zeta.
  - simpl. repeat split; lia.
  - cbn [fold_left].
    match goal with |- context [fold_left _ l ?s1] => specialize (IH s1) end.
    cbv zeta in IH. destruct IH as [I1 [I2 [I3 [I4 I5]]]].
    cbn [tables_validated score_total total_rows_sum total_valid_rows
           tables_with_errors tables_with_warnings snd] in *.
    cbn [List.length].
    destruct (truthy (errors r)), (truthy (warnings r));
      repeat split; lia.
Qed.

Lemma validate_data_sound schemas (raw : dict DataFrame) :
  forall acc v,
    Forall (fun kv => (0 <= data_quality_score (snd kv) <= 100)%Z /\
                      valid_rows (snd kv) <= total_rows (snd kv))
      (validation_results v) ->
    let v' :=
      snd (fold_left
             (fun '(validation_results, v) '(tname, df) =>
                let '(result, v') := validate_dataframe schemas df tname v in
                (dict_set tname result validation_results, v'))
             raw (acc, v)) in
    Forall (fun kv => (0 <= data_quality_score (snd kv) <= 100)%Z /\
                      valid_rows (snd kv) <= total_rows (snd kv))
      (validation_results v') /\
    List.length (validation_results v')
    <= List.length (validation_results v) + List.length raw.
Proof.
  induction raw as [|[t df] raw IH]; intros acc v Hv; cbv zeta.
  - simpl. split; [exact Hv|lia].
  - cbn [fold_left].
    destruct (validate_dataframe schemas df t v) as [res v1] eqn:Hrun.
    assert (Hres : res = fst (validate_dataframe schemas df t v))
      by now rewrite Hrun.
    assert (Hv1 : validation_results v1
                  = dict_set t res (validation_results v)).
    { assert (Hs : v1 = snd (validate_dataframe schemas df t v))
        by now rewrite Hrun.
      rewrite Hs, Hres. reflexivity. }
    specialize (IH (dict_set t res acc) v1). cbv zeta in IH.
    destruct IH as [I1 I2].
    + rewrite Hv1. apply dict_set_Forall; [|exact Hv].
      cbn [snd]. rewrite Hres. apply validate_result_sound.
    + split; [exact I1|]. etransitivity; [exact I2|].
      rewrite Hv1. pose proof (dict_set_length t res (validation_results v)).
      simpl. lia.
Qed.

(** X10.  After the validation phase of a fresh process, whatever the
    tables, the summary is consistent: the scores add up to between 0 and
    100 per table validated, so that the overall score lies in [0, 100];
    the valid rows do not exceed the rows; the tables with errors and those
    with warnings do not exceed the tables validated, which are at most the
    tables handed in. *)
Theorem validation_summary_bounds :
  forall schemas raw,
    let v := Main.data_validator
               (snd (Main._validate_data schemas raw Main.init)) in
    let s := get_validation_summary v in
    (0 <= score_total s <= 100 * Z.of_nat (tables_validated s))%Z /\
    total_valid_rows s <= total_rows_sum s /\
    tables_with_errors s <= tables_validated s /\
    tables_with_warnings s <= tables_validated s /\
    tables_validated s <= List.length raw.
Proof.
  intros schemas raw v s.
  assert (Hv : Forall (fun kv => (0 <= data_quality_score (snd kv) <= 100)%Z /\
                                 valid_rows (snd kv) <= total_rows (snd kv))
                 (validation_results v) /\
               List.length (validation_results v) <= List.length raw).
  { subst v. unfold Main._validate_data.
    pose proof (validate_data_sound schemas raw [] init (Forall_nil _)) as H.
    cbv zeta in H. cbn [Main.data_validator Main.init] in *.
    destruct (fold_left _ raw _) as [vr v']. exact H. }
  destruct Hv as [Hall Hlen].
  pose proof (summary_loop _ Hall
                {| tables_validated := List.length (validation_results v);
                   score_total := 0; total_rows_sum := 0; total_valid_rows := 0;
                   tables_with_errors := 0; tables_with_warnings := 0 |}) as H.
  cbv zeta in H. fold (get_validation_summary v) in H. fold s in H.
  cbn [tables_validated score_total total_rows_sum total_valid_rows
         tables_with_errors tables_with_warnings] in H.
  destruct H as [H1 [H2 [H3 [H4 H5]]]].
  rewrite H1. repeat split; lia.
Qed.

End ValidatorProperties.

(* ------------------------------------------------------------------ *)
(** *** Transformer: what cleaning does to a cell *)

Section CleaningProperties.
Import DataTransformer Findings.
Variable lib : Library.

Lemma is_empty_string_eq v : is_empty_string v = true <-> v = VStr EmptyString.
Proof.
  destruct v as [| |z|f|s]; simpl; split; try discriminate.
  - intros H. apply String.eqb_eq in H. now subst.
  - intros H. inversion H. reflexivity.
Qed.

Lemma where_value_cases cond dt v :
  where_value cond dt v = v \/ where_value cond dt v = na_of dt.
Proof. unfold where_value. destruct (cond v); auto. Qed.

Lemma where_value_na_of cond dt : where_value cond dt (na_of dt) = na_of dt.
Proof. unfold where_value. destruct (cond (na_of dt)); reflexivity. Qed.

(** Cleaning leaves a cell as it is or writes the column's missing marker,
    and it leaves that marker as it is. *)
Lemma clean_value_cases c v :
  clean_value c v = v \/ clean_value c v = na_of (dtype c).
Proof.
  unfold clean_value, where_value.
  repeat match goal with |- context [if ?b then _ else _] => destruct b end;
    auto.
Qed.

Lemma clean_value_na_of c : clean_value c (na_of (dtype c)) = na_of (dtype c).
Proof.
  unfold clean_value.
  destruct (selected ["Int64"] c), (selected ["string"; "object"] c),
    (selected ["float64"] c);
    now rewrite ?where_value_na_of.
Qed.

Lemma where_ne_empty_isna dt v :
  isna (where_value ne_empty dt v) = isna v || is_empty_string v.
Proof.
  unfold where_value. destruct v as [| |z|f|s]; cbn [ne_empty isna is_empty_string].
  - now rewrite isna_na_of.
  - reflexivity.
  - reflexivity.
  - now rewrite orb_false_r.
  - destruct (String.eqb s EmptyString); cbn [negb isna]; [apply isna_na_of|reflexivity].
Qed.

Lemma where_notna_empty dt v :
  is_empty_string (where_value notna dt v) = is_empty_string v.
Proof.
  unfold where_value, notna. destruct (isna v) eqn:E; cbn [negb]; [|reflexivity].
  destruct v as [| |z|f|s]; try discriminate; cbn [is_empty_string];
    unfold na_of; destruct (scalar_type_of dt) as [[]|]; reflexivity.
Qed.

(** A cell is missing after cleaning exactly when it was missing before
    or is an empty string in a text column. *)
Lemma clean_value_isna c v :
  isna (clean_value c v)
  = isna v || (selected ["string"; "object"] c && is_empty_string v).
Proof.
  unfold clean_value.
  destruct (selected ["Int64"] c), (selected ["string"; "object"] c),
    (selected ["float64"] c);
    rewrite ?where_notna_isna, ?where_ne_empty_isna, ?where_notna_isna,
      ?where_notna_empty, ?where_notna_empty;
    cbn [andb]; rewrite ?orb_false_r; reflexivity.
Qed.

(** A cell that stays present keeps its value. *)
Lemma clean_value_present c v :
  isna (clean_value c v) = false -> clean_value c v = v.
Proof.
  intros H. destruct (clean_value_cases c v) as [Hv|Hv]; [exact Hv|].
  rewrite Hv, isna_na_of in H. discriminate.
Qed.

Lemma json_of_value_null v : json_of_value v = JNull <-> isna v = true.
Proof.
  unfold json_of_value. destruct (isna v) eqn:E; [tauto|].
  destruct v; simpl in *; split; discriminate.
Qed.

(** X11.  In the records of a transformed table, when the row cast of
    the library keeps a present cell present (it changes the type of a
    value, it does not lose it), the value of a cell is JSON null exactly
    when the cell was missing ([pd.NA], [None] or NaN) or was an empty
    string in a text column; every other cell holds the value of the cell
    as [iterrows] casts it, and no record holds a NaN. *)
Theorem record_values :
  forall library_error df tname self col i,
    (forall frame c v,
        isna v = false -> isna (row_cast lib frame c v) = false) ->
    library_error tname = None ->
    wf_frame df -> In col (Pandas.columns df) -> i < len df ->
    exists t self' j,
      transform_dataframe lib library_error df tname self = (Ok t, self') /\
      dict_get (name col) (nth i (data t) []) = Some j /\
      let v := nth i (values col) NA in
      (j = JNull <->
       isna v = true \/
       (selected ["string"; "object"] col = true /\ v = VStr EmptyString)) /\
      (j <> JNull ->
       j = json_of_value
             (row_cast lib (_clean_dataframe df tname) (clean_series col) v)) /\
      (forall f, j = JFloat f -> PrimFloat.is_nan f = false).
Proof.
  intros library_error df tname self col i Hcast Hlib Hwf Hcol Hi.
  unfold transform_dataframe. rewrite Hlib.
  eexists. eexists. eexists. split; [reflexivity|]. cbn [data].
  split; [now apply transformed_cell|]. cbv zeta.
  set (v := nth i (values col) NA).
  set (df' := _clean_dataframe df tname).
  assert (Hisna : isna (cast_cell lib df' (clean_series col) (clean_value col v))
                  = isna (clean_value col v)).
  { unfold cast_cell. destruct (isna (clean_value col v)) eqn:E; [exact E|].
    now apply Hcast. }
  assert (Hnull : json_of_value
                    (cast_cell lib df' (clean_series col) (clean_value col v))
                  = JNull <->
                  isna v = true \/
                  (selected ["string"; "object"] col = true /\ v = VStr EmptyString)).
  { rewrite json_of_value_null, Hisna, clean_value_isna, orb_true_iff,
      andb_true_iff.
    now rewrite is_empty_string_eq. }
  split; [exact Hnull|]. split.
  - intros Hj.
    assert (Hpresent : isna (clean_value col v) = false).
    { destruct (isna (clean_value col v)) eqn:E; [|reflexivity].
      exfalso. apply Hj. apply json_of_value_null. now rewrite Hisna. }
    unfold cast_cell. rewrite Hpresent.
    now rewrite (clean_value_present col v Hpresent).
  - intros f Hf. unfold json_of_value in Hf.
    destruct (isna (cast_cell lib df' (clean_series col) (clean_value col v)))
      eqn:E; [discriminate|].
    destruct (cast_cell lib df' (clean_series col) (clean_value col v));
      try discriminate.
    inversion Hf; subst. exact E.
Qed.

Lemma count_or {A} (p q : A -> bool) (l : list A) :
  (forall x, p x = true -> q x = false) ->
  List.length (filter (fun x => p x || q x) l)
  = List.length (filter p l) + List.length (filter q l).
Proof.
  intros Hpq. induction l as [|x l IH]; simpl; [reflexivity|].
  destruct (p x) eqn:Hp; simpl.
  - rewrite (Hpq x Hp). simpl. now rewrite IH.
  - destruct (q x); simpl; rewrite IH; lia.
Qed.

Lemma filter_ext_map {A} (p q : A -> bool) (g : A -> A) (l : list A) :
  (forall x, p (g x) = q x) ->
  List.length (filter p (map g l)) = List.length (filter q l).
Proof.
  intros H. induction l as [|x l IH]; simpl; [reflexivity|].
  rewrite H. destruct (q x); simpl; now rewrite IH.
Qed.

Lemma clean_null_count c :
  null_count (clean_series c)
  = null_count c
    + (if selected ["string"; "object"] c then empty_string_count c else 0).
Proof.
  unfold null_count, empty_string_count. rewrite clean_series_values.
  rewrite (filter_ext_map isna
             (fun v => isna v
                       || (selected ["string"; "object"] c && is_empty_string v))
             (clean_value c)) by apply clean_value_isna.
  destruct (selected ["string"; "object"] c); cbn [andb].
  - apply count_or. intros [| |z|f|s]; simpl; congruence.
  - rewrite Nat.add_0_r. f_equal. apply filter_ext. intros v. apply orb_false_r.
Qed.

(** X13.  The [null_count] the metadata reports for a column is the
    number of its missing cells, plus, for a text column, the number of its
    empty strings. *)
Theorem metadata_null_count :
  forall library_error df tname self,
    library_error tname = None ->
    NoDup (column_names df) ->
    exists t self',
      transform_dataframe lib library_error df tname self = (Ok t, self') /\
      forall col, In col (Pandas.columns df) ->
        exists entry,
          dict_get (name col) (statistics (metadata t)) = Some entry /\
          dict_get "null_count" entry
          = Some (JInt (Z.of_nat
                          (null_count col
                           + (if selected ["string"; "object"] col
                              then empty_string_count col else 0)))).
Proof.
  intros library_error df tname self Hlib Hnd.
  unfold transform_dataframe. rewrite Hlib.
  eexists. eexists. split; [reflexivity|]. cbn [metadata].
  intros col Hcol.
  assert (Hndc : NoDup (column_names (_clean_dataframe df tname)))
    by now rewrite clean_column_names.
  assert (Hcolc : In (clean_series col) (Pandas.columns (_clean_dataframe df tname)))
    by (rewrite clean_columns; now apply in_map).
  pose proof (stats_entry lib _ tname _ Hndc Hcolc) as Hentry.
  rewrite clean_series_name in Hentry.
  eexists. split; [exact Hentry|].
  rewrite <- clean_null_count.
  destruct (selected _ (clean_series col) && negb (all_na (clean_series col)));
    reflexivity.
Qed.

(* ------------------------------------------------------------------ *)
(** *** Transformer: cleaning twice *)

Lemma series_ext (a b : Series) :
  name a = name b -> dtype a = dtype b -> values a = values b -> a = b.
Proof. destruct a, b; simpl; intros; subst; reflexivity. Qed.

Lemma clean_value_dtype c c' v :
  dtype c' = dtype c -> clean_value c' v = clean_value c v.
Proof. intros H. unfold clean_value, selected. now rewrite H. Qed.

Lemma clean_value_idem c v :
  clean_value c (clean_value c v) = clean_value c v.
Proof.
  destruct (clean_value_cases c v) as [Hv|Hv]; rewrite Hv.
  - exact Hv.
  - apply clean_value_na_of.
Qed.

(** X12.  Cleaning is idempotent: cleaning a cleaned frame changes
    nothing. *)
Theorem clean_dataframe_idempotent :
  forall df tname,
    _clean_dataframe (_clean_dataframe df tname) tname
    = _clean_dataframe df tname.
Proof.
  intros df tname.
  assert (Hframe : forall a b : DataFrame,
             Pandas.columns a = Pandas.columns b -> index a = index b -> a = b)
    by (intros [] []; simpl; intros; subst; reflexivity).
  apply Hframe; [|reflexivity].
  rewrite !clean_columns, map_map. apply map_ext. intros c.
  apply series_ext.
  - now rewrite !clean_series_name.
  - now rewrite !clean_series_dtype.
  - rewrite !clean_series_values, map_map. apply map_ext. intros v.
    rewrite (clean_value_dtype c (clean_series c)) by apply clean_series_dtype.
    apply clean_value_idem.
Qed.

End CleaningProperties.

(* ------------------------------------------------------------------ *)
(** *** Transformer: all tables, the summary and the combined dataset *)

Section TablesProperties.
Import DataTransformer.
Variable lib : Library.

Lemma dict_set_map {V W} (h : V -> W) k v (d : dict V) :
  dict_set k (h v) (map (fun kv => (fst kv, h (snd kv))) d)
  = map (fun kv => (fst kv, h (snd kv))) (dict_set k v d).
Proof.
  induction d as [|[k' v'] d IH]; simpl; [reflexivity|].
  destruct (String.eqb k' k); simpl; [reflexivity|]. now rewrite IH.
Qed.

Lemma dict_get_map {V W} (h : V -> W) k (d : dict V) :
  dict_get k (map (fun kv => (fst kv, h (snd kv))) d)
  = option_map h (dict_get k d).
Proof.
  induction d as [|[k' v'] d IH]; simpl; [reflexivity|].
  destruct (String.eqb k' k); [reflexivity|exact IH].
Qed.

(** The table [transform_dataframe] returns when nothing is raised. *)
Lemma transform_dataframe_ok library_error df tname self :
  library_error tname = None ->
  transform_dataframe lib library_error df tname self
  = (Ok {| metadata := _generate_metadata lib (_clean_dataframe df tname) tname;
           data := _convert_to_records lib (_clean_dataframe df tname) tname |},
     {| transformation_stats :=
          dict_set tname
            {| original_rows := len df; transformed_rows := len df;
               stats_columns := column_names df |}
            (transformation_stats self) |}).
Proof.
  intros H. unfold transform_dataframe. rewrite H.
  now rewrite convert_to_records_length, clean_len.
Qed.

Lemma transform_dataframe_raise library_error df tname self e :
  library_error tname = Some e ->
  transform_dataframe lib library_error df tname self = (Raise e, self).
Proof. intros H. unfold transform_dataframe. now rewrite H. Qed.

(** The statistics kept for a table, read off the table itself. *)
Lemma stats_follow_tables library_error (data_dict : dict DataFrame) :
  forall td self,
    transformation_stats self
    = map (fun kv => (fst kv,
                      {| original_rows := List.length (data (snd kv));
                         transformed_rows := List.length (data (snd kv));
                         stats_columns := columns (metadata (snd kv)) |})) td ->
    let out :=
      fold_left
        (fun '(transformed_data, self) '(tname, df) =>
           match transform_dataframe lib library_error df tname self with
           | (Ok t, self') => (dict_set tname t transformed_data, self')
           | (Raise _, self') => (transformed_data, self')
           end) data_dict (td, self) in
    transformation_stats (snd out)
    = map (fun kv => (fst kv,
                      {| original_rows := List.length (data (snd kv));
                         transformed_rows := List.length (data (snd kv));
                         stats_columns := columns (metadata (snd kv)) |}))
        (fst out).
Proof.
  induction data_dict as [|[k df] dd IH]; intros td self Hinv; cbv zeta;
    [exact Hinv|].
  cbn [fold_left].
  destruct (library_error k) as [e|] eqn:Hk.
  - rewrite (transform_dataframe_raise _ _ _ _ _ Hk). now apply IH.
  - rewrite (transform_dataframe_ok _ _ _ _ Hk). apply IH.
    cbn [transformation_stats]. rewrite Hinv.
    rewrite <- (dict_set_map
                  (fun t => {| original_rows := List.length (data t);
                               transformed_rows := List.length (data t);
                               stats_columns := columns (metadata t) |})).
    cbn [data metadata].
    change (columns (_generate_metadata lib ?d ?t)) with (column_names d).
    now rewrite convert_to_records_length, clean_len, clean_column_names.
Qed.

(** X14.  After [transform_all_tables] in a fresh process, the
    transformation summary agrees with the tables returned: it counts as
    many tables and its record total is the number of records in their
    [data]; when a table was transformed it reports as many original rows as
    records, and when none was it holds neither [total_original_records]
    nor [tables]. *)
Theorem transformation_summary_agrees :
  forall library_error data_dict,
    let td := fst (transform_all_tables lib library_error data_dict init) in
    let s := get_transformation_summary
               (snd (transform_all_tables lib library_error data_dict init)) in
    tables_transformed s = List.length td /\
    summary_total_records s
    = list_sum (map (fun kv => List.length (data (snd kv))) td) /\
    total_original_records s
    = (if truthy td then Some (summary_total_records s) else None) /\
    (summary_tables s = None <-> td = []) /\
    dict_keys (transformation_stats
                 (snd (transform_all_tables lib library_error data_dict init)))
    = dict_keys td.
Proof.
  intros library_error data_dict td s.
  pose proof (stats_follow_tables library_error data_dict [] init eq_refl) as H.
  cbv zeta in H. fold (transform_all_tables lib library_error data_dict init) in H.
  fold td in H. subst s. unfold get_transformation_summary.
  rewrite H.
  match goal with
  | |- context [truthy (map ?g td)] =>
      replace (truthy (map g td)) with (truthy td) by now destruct td
  end.
  destruct td as [|kt td'] eqn:Etd.
  - cbn. repeat split; discriminate.
  - cbn [truthy negb tables_transformed summary_total_records
           total_original_records summary_tables].
    unfold dict_keys. rewrite !length_map, !map_map.
    cbn [snd fst transformed_rows original_rows].
    repeat split; discriminate.
Qed.

(** The dictionary returned does not depend on the statistics kept. *)
Lemma transformed_tables_only library_error (data_dict : dict DataFrame) :
  forall td self,
    fst (fold_left
           (fun '(transformed_data, self) '(tname, df) =>
              match transform_dataframe lib library_error df tname self with
              | (Ok t, self') => (dict_set tname t transformed_data, self')
              | (Raise _, self') => (transformed_data, self')
              end) data_dict (td, self))
    = fold_left
        (fun d (x : string * DataFrame) =>
           match library_error (fst x) with
           | Some _ => d
           | None =>
               dict_set (fst x)
                 {| metadata :=
                      _generate_metadata lib (_clean_dataframe (snd x) (fst x)) (fst x);
                    data :=
                      _convert_to_records lib (_clean_dataframe (snd x) (fst x)) (fst x) |}
                 d
           end) data_dict td.
Proof.
  induction data_dict as [|[k df] dd IH]; intros td self; [reflexivity|].
  cbn [fold_left fst snd].
  destruct (library_error k) as [e|] eqn:Hk.
  - rewrite (transform_dataframe_raise _ _ _ _ _ Hk). apply IH.
  - rewrite (transform_dataframe_ok _ _ _ _ Hk). apply IH.
Qed.

(** X15.  With table names given once each, [transform_all_tables]
    returns, under its name, the transformed table of every input table for
    which the library raised nothing, and no entry for a table for which it
    raised or that was not handed in. *)
Theorem transform_all_tables_lookup :
  forall library_error data_dict self,
    dict_ok data_dict ->
    let td := fst (transform_all_tables lib library_error data_dict self) in
    (forall tname df,
        In (tname, df) data_dict ->
        dict_get tname td
        = match library_error tname with
          | Some _ => None
          | None =>
              Some {| metadata :=
                        _generate_metadata lib (_clean_dataframe df tname) tname;
                      data :=
                        _convert_to_records lib (_clean_dataframe df tname) tname |}
          end) /\
    (forall tname, ~ In tname (dict_keys data_dict) -> dict_get tname td = None).
Proof.
  intros library_error data_dict self Hok td. subst td.
  unfold transform_all_tables. rewrite transformed_tables_only.
  pose (upd := fun (x : string * DataFrame) (d : dict Transformed) =>
                 match library_error (fst x) with
                 | Some _ => d
                 | None =>
                     dict_set (fst x)
                       {| metadata :=
                            _generate_metadata lib (_clean_dataframe (snd x) (fst x)) (fst x);
                          data :=
                            _convert_to_records lib (_clean_dataframe (snd x) (fst x)) (fst x) |}
                       d
                 end).
  pose (F := fun (x : string * DataFrame) (o : option Transformed) =>
               match library_error (fst x) with
               | Some _ => o
               | None =>
                   Some {| metadata :=
                             _generate_metadata lib (_clean_dataframe (snd x) (fst x)) (fst x);
                           data :=
                             _convert_to_records lib (_clean_dataframe (snd x) (fst x)) (fst x) |}
               end).
  assert (Ho : forall x d k, k <> fst x -> dict_get k (upd x d) = dict_get k d).
  { intros x d k Hk. unfold upd. destruct (library_error (fst x)); [reflexivity|].
    now apply dict_get_set_other. }
  assert (Hs : forall x d, dict_get (fst x) (upd x d) = F x (dict_get (fst x) d)).
  { intros x d. unfold upd, F. destruct (library_error (fst x)); [reflexivity|].
    apply dict_get_set_same. }
  split.
  - intros tname df Hin.
    pose proof (fold_update_same fst upd F Ho Hs data_dict [] (tname, df) Hok Hin) as H.
    cbn [fst snd] in H. unfold F in H. cbn [fst snd dict_get] in H. exact H.
  - intros tname Hout.
    exact (fold_update_other fst upd Ho data_dict [] tname Hout).
Qed.

(** X16.  With table names given once each, the combined dataset holds,
    under each table's name, that table's records and, in its metadata, the
    number of those records and the table's columns; it holds nothing under
    any other name. *)
Theorem combined_dataset_lookup :
  forall (td : dict Transformed) tname,
    dict_ok td ->
    let c := create_combined_dataset td in
    dict_get tname (tables c) = option_map data (dict_get tname td) /\
    dict_get tname (tables_info (combined_metadata c))
    = option_map
        (fun t => {| info_record_count := List.length (data t);
                     info_columns := columns (metadata t) |})
        (dict_get tname td) /\
    dataset_name (combined_metadata c) = "retail_db_combined".
Proof.
  intros td tname Hok c. subst c. unfold create_combined_dataset.
  destruct (combined_loop td
              {| combined_metadata :=
                   {| dataset_name := "retail_db_combined";
                      table_count := List.length td;
                      total_records := 0;
                      tables_info := [] |};
                 tables := [] |}) as [_ [_ [H3 H4]]].
  assert (Hname : forall l c0,
             dataset_name
               (combined_metadata
                  (fold_left
                     (fun combined '(tname, table_data) =>
                        let record_count := List.length (data table_data) in
                        let md := combined_metadata combined in
                        {| combined_metadata :=
                             {| dataset_name := dataset_name md;
                                table_count := table_count md;
                                total_records := total_records md + record_count;
                                tables_info :=
                                  dict_set tname
                                    {| info_record_count := record_count;
                                       info_columns := columns (metadata table_data) |}
                                    (tables_info md) |};
                           tables := dict_set tname (data table_data) (tables combined) |})
                     l c0))
             = dataset_name (combined_metadata c0)).
  { induction l as [|[k t] l IH]; intros c0; [reflexivity|].
    cbn [fold_left]. now rewrite IH. }
  cbn [combined_metadata table_count total_records tables_info tables] in *.
  rewrite fold_set_append in H3 by exact Hok.
  rewrite fold_set_append in H4 by exact Hok.
  cbn [app] in H3, H4.
  split; [|split].
  - rewrite H4. apply (dict_get_map data).
  - rewrite H3.
    apply (dict_get_map (fun t => {| info_record_count := List.length (data t);
                                     info_columns := columns (metadata t) |})).
  - apply Hname.
Qed.

End TablesProperties.

(* ------------------------------------------------------------------ *)
(** *** Writer and run *)

Section WriterProperties.
Import JsonWriter.

Lemma write_table_json_ok settings write_error t tname self :
  write_error (_get_table_output_path settings tname) = None ->
  write_table_json settings write_error t tname self
  = (Ok (_get_table_output_path settings tname),
     {| write_stats :=
          dict_set tname
            {| file_path := _get_table_output_path settings tname;
               record_count := List.length (DataTransformer.data t) |}
            (write_stats self) |}).
Proof. intros H. unfold write_table_json. now rewrite H. Qed.

Lemma write_table_json_raise settings write_error t tname self e :
  write_error (_get_table_output_path settings tname) = Some e ->
  write_table_json settings write_error t tname self = (Raise e, self).
Proof. intros H. unfold write_table_json. now rewrite H. Qed.

(** The written files and the statistics kept, as loops over the tables
    alone. *)
Lemma write_all_tables_loops settings write_error
  (td : dict DataTransformer.Transformed) :
  forall written self,
    let out :=
      fold_left
        (fun '(written_files, self) '(tname, table_data) =>
           match write_table_json settings write_error table_data tname self with
           | (Ok path, self') => (dict_set tname path written_files, self')
           | (Raise _, self') => (written_files, self')
           end) td (written, self) in
    fst out
    = fold_left
        (fun d (x : string * DataTransformer.Transformed) =>
           match write_error (_get_table_output_path settings (fst x)) with
           | Some _ => d
           | None => dict_set (fst x) (_get_table_output_path settings (fst x)) d
           end) td written /\
    write_stats (snd out)
    = fold_left
        (fun d (x : string * DataTransformer.Transformed) =>
           match write_error (_get_table_output_path settings (fst x)) with
           | Some _ => d
           | None =>
               dict_set (fst x)
                 {| file_path := _get_table_output_path settings (fst x);
                    record_count := List.length (DataTransformer.data (snd x)) |}
                 d
           end) td (write_stats self).
Proof.
  induction td as [|[k t] td IH]; intros written self; cbv zeta;
    [split; reflexivity|].
  cbn [fold_left fst snd].
  destruct (write_error (_get_table_output_path settings k)) as [e|] eqn:Hk.
  - rewrite (write_table_json_raise _ _ _ _ _ _ Hk). apply IH.
  - rewrite (write_table_json_ok _ _ _ _ _ Hk). apply IH.
Qed.

Lemma write_all_tables_fold settings write_error
  (td : dict DataTransformer.Transformed) self :
  fst (write_all_tables settings write_error td self)
  = fold_left
      (fun d (x : string * DataTransformer.Transformed) =>
         match write_error (_get_table_output_path settings (fst x)) with
         | Some _ => d
         | None => dict_set (fst x) (_get_table_output_path settings (fst x)) d
         end) td [] /\
  write_stats (snd (write_all_tables settings write_error td self))
  = fold_left
      (fun d (x : string * DataTransformer.Transformed) =>
         match write_error (_get_table_output_path settings (fst x)) with
         | Some _ => d
         | None =>
             dict_set (fst x)
               {| file_path := _get_table_output_path settings (fst x);
                  record_count := List.length (DataTransformer.data (snd x)) |}
               d
         end) td (write_stats self).
Proof. exact (write_all_tables_loops settings write_error td [] self). Qed.

(** X17.  With table names given once each, [write_all_tables] returns
    the table's output path for every table whose write raised nothing and
    no entry for a table whose write raised; the write statistics then hold
    that path and the table's number of records. *)
Theorem write_all_tables_lookup :
  forall settings write_error (td : dict DataTransformer.Transformed) self tname t,
    dict_ok td -> In (tname, t) td ->
    let out := write_all_tables settings write_error td self in
    let path := _get_table_output_path settings tname in
    (write_error path = None ->
     dict_get tname (fst out) = Some path /\
     dict_get tname (write_stats (snd out))
     = Some {| file_path := path;
               record_count := List.length (DataTransformer.data t) |}) /\
    (write_error path <> None ->
     dict_get tname (fst out) = None /\
     dict_get tname (write_stats (snd out)) = dict_get tname (write_stats self)).
Proof.
  intros settings write_error td self tname t Hok Hin out path. subst out path.
  destruct (write_all_tables_fold settings write_error td self) as [Hw Hs].
  rewrite Hw, Hs. clear Hw Hs.
  pose (upd1 := fun (x : string * DataTransformer.Transformed) (d : dict string) =>
                  match write_error (_get_table_output_path settings (fst x)) with
                  | Some _ => d
                  | None => dict_set (fst x) (_get_table_output_path settings (fst x)) d
                  end).
  pose (F1 := fun (x : string * DataTransformer.Transformed) (o : option string) =>
                match write_error (_get_table_output_path settings (fst x)) with
                | Some _ => o
                | None => Some (_get_table_output_path settings (fst x))
                end).
  pose (upd2 := fun (x : string * DataTransformer.Transformed) (d : dict WriteStat) =>
                  match write_error (_get_table_output_path settings (fst x)) with
                  | Some _ => d
                  | None =>
                      dict_set (fst x)
                        {| file_path := _get_table_output_path settings (fst x);
                           record_count := List.length (DataTransformer.data (snd x)) |}
                        d
                  end).
  pose (F2 := fun (x : string * DataTransformer.Transformed) (o : option WriteStat) =>
                match write_error (_get_table_output_path settings (fst x)) with
                | Some _ => o
                | None =>
                    Some {| file_path := _get_table_output_path settings (fst x);
                            record_count := List.length (DataTransformer.data (snd x)) |}
                end).
  assert (H1o : forall x d k, k <> fst x -> dict_get k (upd1 x d) = dict_get k d).
  { intros x d k Hk. unfold upd1. destruct (write_error _); [reflexivity|].
    now apply dict_get_set_other. }
  assert (H1s : forall x d, dict_get (fst x) (upd1 x d) = F1 x (dict_get (fst x) d)).
  { intros x d. unfold upd1, F1. destruct (write_error _); [reflexivity|].
    apply dict_get_set_same. }
  assert (H2o : forall x d k, k <> fst x -> dict_get k (upd2 x d) = dict_get k d).
  { intros x d k Hk. unfold upd2. destruct (write_error _); [reflexivity|].
    now apply dict_get_set_other. }
  assert (H2s : forall x d, dict_get (fst x) (upd2 x d) = F2 x (dict_get (fst x) d)).
  { intros x d. unfold upd2, F2. destruct (write_error _); [reflexivity|].
    apply dict_get_set_same. }
  pose proof (fold_update_same fst upd1 F1 H1o H1s td [] (tname, t) Hok Hin) as G1.
  pose proof (fold_update_same fst upd2 F2 H2o H2s td (write_stats self)
                (tname, t) Hok Hin) as G2.
  unfold F1 in G1. unfold F2 in G2. cbn [fst snd dict_get] in G1, G2.
  split.
  - intros Hnone. rewrite Hnone in G1, G2. split; [exact G1|exact G2].
  - intros Hsome.
    destruct (write_error (_get_table_output_path settings tname)); [|congruence].
    split; [exact G1|exact G2].
Qed.

End WriterProperties.

Section RunProperties.
Import Main.

Lemma fold_dict_set_nonempty {A V} (step : dict V -> A -> dict V) (l : list A) :
  (forall d x, step d x <> []) ->
  forall d, l <> [] -> fold_left step l d <> [].
Proof.
  intros Hstep. induction l as [|x l IH]; intros d Hl; [congruence|].
  cbn [fold_left]. destruct l as [|y l]; [apply Hstep|].
  apply IH. discriminate.
Qed.

Lemma validate_data_results schemas (raw : dict DataFrame) :
  forall acc v,
    raw <> [] ->
    fst (fold_left
           (fun '(validation_results, v) '(tname, df) =>
              let '(result, v') :=
                DataValidator.validate_dataframe schemas df tname v in
              (dict_set tname result validation_results, v'))
           raw (acc, v)) <> [].
Proof.
  induction raw as [|[t df] raw IH]; intros acc v Hraw; [congruence|].
  cbn [fold_left].
  destruct (DataValidator.validate_dataframe schemas df t v) as [res v1].
  destruct raw as [|x raw]; [apply dict_set_nonempty|].
  apply IH. discriminate.
Qed.

(** What a run that returns went through. *)
Lemma run_conversion_ok w validate_data self r self' :
  run_conversion w validate_data self = (Ok r, self') ->
  exists settings schemas raw vr s1 td s2 wr,
    _initialize_config w = Ok (settings, schemas) /\
    _read_csv_data w schemas = Ok raw /\
    (if match validate_data with
        | Some b => b
        | None => Config.get_setting
                    (Config.processing_validate_data settings) true
        end
     then _validate_data schemas raw self else ([], self)) = (vr, s1) /\
    _transform_data w raw s1 = (Ok td, s2) /\
    _write_json_files w settings td s2 = (Ok wr, self') /\
    r = _compile_results raw vr td wr self'.
Proof.
  unfold run_conversion.
  destruct (_initialize_config w) as [[settings schemas]|e] eqn:Hi; [|discriminate].
  destruct (_read_csv_data w schemas) as [raw|e] eqn:Hr; [|discriminate].
  cbv zeta.
  match goal with
  | |- context [if ?b then _validate_data schemas raw self else ?y] =>
      destruct (if b then _validate_data schemas raw self else y)
        as [vr s1] eqn:Hv
  end.
  destruct (_transform_data w raw s1) as [[td|e] s2] eqn:Ht; [|discriminate].
  destruct (_write_json_files w settings td s2) as [[wr|e] s3] eqn:Hw;
    [|discriminate].
  intros H. inversion H; subst.
  exists settings, schemas, raw, vr, s1, td, s2, wr.
  split; [reflexivity|]. split; [exact Hr|]. split; [exact Hv|].
  split; [exact Ht|]. split; [exact Hw|reflexivity].
Qed.

(** X19.  In every results structure a run returns, the validation phase
    is reported as enabled exactly when validation was requested (by the
    argument, else by the setting, else by default); when it was not, no
    validation result is reported and the validator is left as it was. *)
Theorem validation_flag_reports_request :
  forall w validate_data self r self' settings schemas,
    _initialize_config w = Ok (settings, schemas) ->
    run_conversion w validate_data self = (Ok r, self') ->
    let requested :=
      match validate_data with
      | Some b => b
      | None => Config.get_setting
                  (Config.processing_validate_data settings) true
      end in
    validation_enabled (phases r) = requested /\
    (requested = false ->
     validation_results (phases r) = [] /\
     data_validator self' = data_validator self).
Proof.
  intros w validate_data self r self' settings schemas Hinit Hrun requested.
  destruct (run_conversion_ok _ _ _ _ _ Hrun)
    as [settings' [schemas' [raw [vr [s1 [td [s2 [wr [Hi [Hr [Hv [Ht [Hw Hres]]]]]]]]]]]]].
  rewrite Hinit in Hi. inversion Hi; subst settings' schemas'. clear Hi.
  fold requested in Hv.
  assert (Hraw : raw <> []).
  { unfold _read_csv_data in Hr.
    destruct (CsvReader.read_all_tables _ _ _) as [|x l]; [discriminate|].
    inversion Hr. discriminate. }
  assert (Hkeep2 : data_validator s2 = data_validator s1).
  { unfold _transform_data in Ht.
    destruct (DataTransformer.transform_all_tables _ _ raw _) as [td' t'].
    destruct (negb (truthy td')); inversion Ht; reflexivity. }
  assert (Hkeep3 : data_validator self' = data_validator s2).
  { unfold _write_json_files in Hw.
    repeat match type of Hw with
           | context [let '(_, _) := ?x in _] => destruct x
           | context [match ?x with _ => _ end] => destruct x
           end; inversion Hw; reflexivity. }
  rewrite Hres. cbn [phases validation_enabled validation_results].
  destruct requested.
  - split; [|discriminate].
    unfold _validate_data in Hv.
    pose proof (validate_data_results schemas raw [] (data_validator self) Hraw) as Hne.
    destruct (fold_left _ raw _) as [vr' v']. inversion Hv; subst.
    cbn [fst] in Hne. now apply truthy_nonempty.
  - inversion Hv; subst. split; [reflexivity|]. intros _.
    split; [reflexivity|]. now rewrite Hkeep3, Hkeep2.
Qed.

(** X18.  When the combined file is wanted and writing it raises, the
    run raises that error instead of returning, although at least one table
    was read and transformed. *)
Theorem combined_write_failure_fails_run :
  forall w validate_data self settings schemas e,
    _initialize_config w = Ok (settings, schemas) ->
    let raw := CsvReader.read_all_tables (pandas w) schemas (files w) in
    let td := fst (DataTransformer.transform_all_tables (pandas w)
                     (library_error w) raw
                     (data_transformer self)) in
    raw <> [] -> td <> [] ->
    Config.get_setting (Config.output_combined_file settings) true = true ->
    write_error w (JsonWriter._get_combined_output_path settings) = Some e ->
    exists self', run_conversion w validate_data self = (Raise e, self').
Proof.
  intros w validate_data self settings schemas e Hinit raw td Hraw Htd Hon Herr.
  unfold run_conversion. rewrite Hinit.
  unfold _read_csv_data. fold raw. rewrite (truthy_nonempty raw Hraw). cbn [negb].
  cbv zeta.
  match goal with
  | |- context [if ?b then _validate_data schemas raw self else ?y] =>
      destruct (if b then _validate_data schemas raw self else y)
        as [vr s1] eqn:Hv;
      assert (Hs1 : data_transformer s1 = data_transformer self)
        by (destruct b;
            [ pose proof (validate_data_keeps schemas raw self) as [Hk _];
              rewrite Hv in Hk; exact Hk
            | inversion Hv; subst; reflexivity ])
  end.
  unfold _transform_data. rewrite Hs1.
  destruct (DataTransformer.transform_all_tables (pandas w) (library_error w) raw
              (data_transformer self)) as [td' t'] eqn:Htr.
  assert (Htd' : td' = td) by (subst td; first [reflexivity | now rewrite Htr]).
  rewrite Htd', (truthy_nonempty td Htd). cbn [negb].
  unfold _write_json_files. rewrite Hon.
  destruct (if Config.get_setting (Config.output_individual_files settings) true
            then _ else _) as [ind wr1].
  unfold JsonWriter.write_combined_json. rewrite Herr.
  eexists. reflexivity.
Qed.

End RunProperties.

Section WriteReport.
Import JsonWriter.

Lemma fold_left_agree {A B} (f g : A -> B -> A) (l : list B) :
  (forall a x, In x l -> f a x = g a x) ->
  forall a, fold_left f l a = fold_left g l a.
Proof.
  induction l as [|x l IH]; intros H a; [reflexivity|].
  cbn [fold_left]. rewrite (H a x (or_introl eq_refl)).
  apply IH. intros a' y Hy. apply H. now right.
Qed.

(** X20.  When every table and the combined dataset are written by a
    fresh writer and no table is called [_combined], the write summary
    counts one file more than there are tables, and counts every record
    twice: once for its table's file and once for the combined file. *)
Theorem write_summary_counts_records_twice :
  forall settings write_error (td : dict DataTransformer.Transformed),
    dict_ok td ->
    ~ In "_combined" (dict_keys td) ->
    (forall path, write_error path = None) ->
    let tables := write_all_tables settings write_error td init in
    let combined :=
      write_combined_json settings write_error
        (DataTransformer.create_combined_dataset td) (snd tables) in
    let s := get_write_summary (snd combined) in
    fst combined = Ok (_get_combined_output_path settings) /\
    List.length (fst tables) = List.length td /\
    files_written s = List.length td + 1 /\
    total_records s
    = 2 * list_sum (map (fun kv => List.length (DataTransformer.data (snd kv))) td).
Proof.
  intros settings write_error td Hok Hfresh Hnone tables combined s.
  destruct (write_all_tables_fold settings write_error td init) as [Hw Hs].
  fold tables in Hw, Hs.
  rewrite (fold_left_agree _
             (fun d (x : string * DataTransformer.Transformed) =>
                dict_set (fst x) (_get_table_output_path settings (fst x)) d))
    in Hw by (intros a x _; now rewrite Hnone).
  rewrite (fold_left_agree _
             (fun d (x : string * DataTransformer.Transformed) =>
                dict_set (fst x)
                  {| file_path := _get_table_output_path settings (fst x);
                     record_count := List.length (DataTransformer.data (snd x)) |}
                  d))
    in Hs by (intros a x _; now rewrite Hnone).
  rewrite fold_set_append in Hw by exact Hok.
  cbn [write_stats init] in Hs.
  rewrite fold_set_append in Hs by exact Hok.
  cbn [app] in Hw, Hs.
  assert (Hc : combined
               = (Ok (_get_combined_output_path settings),
                  {| write_stats :=
                       dict_set "_combined"
                         {| file_path := _get_combined_output_path settings;
                            record_count :=
                              DataTransformer.total_records
                                (DataTransformer.combined_metadata
                                   (DataTransformer.create_combined_dataset td)) |}
                         (write_stats (snd tables)) |})).
  { subst combined. unfold write_combined_json. now rewrite Hnone. }
  assert (Htotal : DataTransformer.total_records
                     (DataTransformer.combined_metadata
                        (DataTransformer.create_combined_dataset td))
                   = list_sum (map (fun kv => List.length
                                                (DataTransformer.data (snd kv))) td)).
  { unfold DataTransformer.create_combined_dataset.
    destruct (combined_loop td
                {| DataTransformer.combined_metadata :=
                     {| DataTransformer.dataset_name := "retail_db_combined";
                        DataTransformer.table_count := List.length td;
                        DataTransformer.total_records := 0;
                        DataTransformer.tables_info := [] |};
                   DataTransformer.tables := [] |}) as [_ [H2 _]].
    exact H2. }
  subst s. rewrite Hc. cbn [fst snd]. unfold get_write_summary.
  cbn [write_stats files_written total_records].
  rewrite Htotal, Hs.
  rewrite dict_set_fresh
    by (unfold dict_keys; rewrite map_map; exact Hfresh).
  match goal with
  | |- context [truthy (?l ++ [?x])] =>
      replace (truthy (l ++ [x])) with true by (now destruct l)
  end.
  cbn [negb files_written total_records].
  split; [reflexivity|]. split; [rewrite Hw; apply length_map|].
  split.
  - rewrite length_app, length_map. reflexivity.
  - rewrite map_app, map_map. cbn [map snd record_count].
    assert (Happ : forall l x, list_sum (l ++ [x]) = list_sum l + x).
    { induction l as [|y l IH]; intros x; simpl; [lia|].
      rewrite IH. lia. }
    rewrite Happ. lia.
Qed.

End WriteReport.

(* ------------------------------------------------------------------ *)
(** *** Concrete instances *)

Section Instances.
Import SchemaReader CsvReader Order.

(** X1 on a schema that lists [name] before [id]: the names come back as
    [id], [name]. *)
Lemma column_names_in_position_order_shuffled :
  get_column_names Scenarios.shuffled_schemas "people" = Ok ["id"; "name"] /\
  exists items,
    get_column_names Scenarios.shuffled_schemas "people" = Ok (map fst items) /\
    Permutation items (columns_of Scenarios.shuffled_schema) /\
    StronglySorted by_position items.
Proof.
  split; [reflexivity|].
  destruct (column_names_in_position_order Scenarios.shuffled_schemas "people"
              Scenarios.shuffled_schema eq_refl)
    as [items [Hnames [Hperm [Hsorted _]]]].
  exists items. split; [exact Hnames|]. split; [exact Hperm|exact Hsorted].
Defined.

(** X3 on the schema of Scenario A. *)
Lemma pandas_dtypes_of_schema_people :
  exists dtypes,
    get_pandas_dtypes Examples.schemas "people" = Ok dtypes /\
    dict_get "id" dtypes = Some "Int64" /\
    dict_get "name" dtypes = Some "string" /\
    dict_get "age" dtypes = None.
Proof.
  destruct (pandas_dtypes_of_schema Examples.schemas "people"
              Examples.people_schema eq_refl)
    as [dtypes [Hd [_ [_ [Hin Hout]]]]].
  exists dtypes. split; [exact Hd|].
  assert (Hok : dict_ok (columns_of Examples.people_schema)).
  { repeat constructor; simpl; intuition discriminate. }
  split; [|split].
  - apply (Hin Hok "id" (Examples.column "int64" 0 true)). now left.
  - apply (Hin Hok "name" (Examples.column "string" 1 true)). right. now left.
  - apply Hout. simpl. intuition discriminate.
Defined.



(** X6 on the file of Scenario A. *)
Lemma read_all_tables_lookup_people :
  dict_get "people"
    (read_all_tables Examples.library Examples.schemas
       (fun _ => Some Examples.people_lines))
  = Some Examples.people.
Proof.
  destruct (read_all_tables_lookup Examples.library Examples.schemas
              (fun _ => Some Examples.people_lines)) as [_ Hlookup].
  - repeat constructor. intros [].
  - apply Hlookup. split; [now left|reflexivity].
Defined.



(** X9 on a table name, [orders], that the schemas do not hold. *)
Lemma unknown_table_validation_orders :
  dict_get "orders" Examples.schemas = None /\
  DataValidator.errors
    (fst (DataValidator.validate_dataframe Examples.schemas Examples.people
            "orders" DataValidator.init))
  = ["Validation process failed: 'Schema not found for table: orders'"] /\
  DataValidator.data_quality_score
    (fst (DataValidator.validate_dataframe Examples.schemas Examples.people
            "orders" DataValidator.init)) = 0%Z.
Proof.
  split; [reflexivity|].
  destruct (unknown_table_validation Examples.schemas Examples.people "orders"
              DataValidator.init eq_refl) as [Hres _].
  rewrite Hres. split; reflexivity.
Defined.

(** X11 on the first row of a table whose [name] is an empty string. *)
Lemma record_values_blanks :
  exists t self' j,
    DataTransformer.transform_dataframe Examples.library Examples.no_error
      Examples.blanks
      "people" DataTransformer.init = (Ok t, self') /\
    dict_get "name" (nth 0 (DataTransformer.data t) []) = Some j /\
    j = DataTransformer.JNull.
Proof.
  assert (Hwf : wf_frame Examples.blanks).
  { split; repeat constructor; simpl; intuition discriminate. }
  destruct (record_values Examples.library Examples.no_error Examples.blanks
              "people" DataTransformer.init Examples.names_col 0
              (fun _ _ _ Hv => Hv) eq_refl Hwf
              (or_intror (or_introl eq_refl)) (Nat.lt_0_succ 2))
    as [t [self' [j [Hrun [Hget [Hnull _]]]]]].
  exists t, self', j. split; [exact Hrun|]. split; [exact Hget|].
  apply Hnull. right. split; reflexivity.
Defined.

(** X13 on a text column with two empty strings and no missing cell. *)
Lemma metadata_null_count_blanks :
  exists t self' entry,
    DataTransformer.transform_dataframe Examples.library Examples.no_error
      Examples.blanks
      "people" DataTransformer.init = (Ok t, self') /\
    dict_get "name"
      (DataTransformer.statistics (DataTransformer.metadata t)) = Some entry /\
    dict_get "null_count" entry = Some (DataTransformer.JInt 2).
Proof.
  assert (Hnd : NoDup (column_names Examples.blanks)).
  { repeat constructor; simpl; intuition discriminate. }
  destruct (metadata_null_count Examples.library Examples.no_error
              Examples.blanks "people"
              DataTransformer.init eq_refl Hnd)
    as [t [self' [Hrun Hcols]]].
  destruct (Hcols Examples.names_col (or_intror (or_introl eq_refl)))
    as [entry [Hentry Hcount]].
  exists t, self', entry. split; [exact Hrun|]. split; [exact Hentry|exact Hcount].
Defined.

(** X15 on the two tables of Scenario C. *)
Lemma transform_all_tables_lookup_three_and_five :
  dict_get "a" Examples.three_and_five = Some Scenarios.first_table /\
  dict_get "c" Examples.three_and_five = None.
Proof.
  assert (Hok : dict_ok [("a", Examples.ids [1; 2; 3]%Z);
                         ("b", Examples.ids [1; 2; 3; 4; 5]%Z)]).
  { repeat constructor; simpl; intuition discriminate. }
  destruct (transform_all_tables_lookup Examples.library Examples.no_error
              [("a", Examples.ids [1; 2; 3]%Z);
               ("b", Examples.ids [1; 2; 3; 4; 5]%Z)]
              DataTransformer.init Hok) as [Hin Hout].
  split.
  - exact (Hin "a" (Examples.ids [1; 2; 3]%Z) (or_introl eq_refl)).
  - apply Hout. simpl. intuition discriminate.
Defined.

(** X16 on the two tables of Scenario C. *)
Lemma combined_dataset_lookup_three_and_five :
  dict_ok Examples.three_and_five /\
  dict_get "a"
    (DataTransformer.tables
       (DataTransformer.create_combined_dataset Examples.three_and_five))
  = Some (DataTransformer.data Scenarios.first_table) /\
  dict_get "c"
    (DataTransformer.tables
       (DataTransformer.create_combined_dataset Examples.three_and_five))
  = None.
Proof.
  assert (Hok : dict_ok Examples.three_and_five).
  { repeat constructor; simpl; intuition discriminate. }
  split; [exact Hok|]. split.
  - destruct (combined_dataset_lookup Examples.three_and_five "a" Hok)
      as [Ht _].
    rewrite Ht. reflexivity.
  - destruct (combined_dataset_lookup Examples.three_and_five "c" Hok)
      as [Ht _].
    rewrite Ht. reflexivity.
Defined.

(** X17 on the two tables of Scenario C. *)
Lemma write_all_tables_lookup_three_and_five :
  dict_get "a"
    (fst (JsonWriter.write_all_tables Examples.default_settings
            Examples.no_error Examples.three_and_five JsonWriter.init))
  = Some "data/output/a.json" /\
  dict_get "a"
    (JsonWriter.write_stats
       (snd (JsonWriter.write_all_tables Examples.default_settings
               Examples.no_error Examples.three_and_five JsonWriter.init)))
  = Some {| JsonWriter.file_path := "data/output/a.json";
            JsonWriter.record_count := 3 |}.
Proof.
  assert (Hok : dict_ok Examples.three_and_five).
  { repeat constructor; simpl; intuition discriminate. }
  destruct (write_all_tables_lookup Examples.default_settings
              Examples.no_error Examples.three_and_five JsonWriter.init
              "a" Scenarios.first_table Hok (or_introl eq_refl))
    as [Hwritten _].
  exact (Hwritten eq_refl).
Defined.

(** X18 on a run in which only the combined file cannot be written. *)
Lemma combined_write_failure_fails_run_people :
  exists self',
    Main.run_conversion Scenarios.world_combined_unwritable None Main.init
    = (Raise (OSError "No space left on device"), self').
Proof.
  apply (combined_write_failure_fails_run Scenarios.world_combined_unwritable
           None Main.init Examples.default_settings Examples.schemas
           (OSError "No space left on device"));
    [reflexivity | discriminate | discriminate | reflexivity | reflexivity].
Defined.

(** X19 on a run of Scenario A with validation switched off. *)
Lemma validation_flag_reports_request_people :
  exists r self',
    Main.run_conversion Examples.world_people (Some false) Main.init
    = (Ok r, self') /\
    Main.validation_enabled (Main.phases r) = false /\
    Main.validation_results (Main.phases r) = [] /\
    Main.data_validator self' = DataValidator.init.
Proof.
  destruct (Main.run_conversion Examples.world_people (Some false) Main.init)
    as [[r|e] self'] eqn:Hrun; [|discriminate].
  destruct (validation_flag_reports_request Examples.world_people (Some false)
              Main.init r self' Examples.default_settings Examples.schemas
              eq_refl Hrun) as [Hflag Hoff].
  destruct (Hoff eq_refl) as [Hnone Hkept].
  exists r, self'. split; [reflexivity|]. split; [exact Hflag|].
  split; [exact Hnone|exact Hkept].
Defined.

(** X20 on Scenario C: 3 files and 16 records are reported for two
    tables of 3 and 5 records. *)
Lemma write_summary_counts_records_twice_three_and_five :
  JsonWriter.files_written
    (JsonWriter.get_write_summary
       (snd (JsonWriter.write_combined_json Examples.default_settings
               Examples.no_error
               (DataTransformer.create_combined_dataset Examples.three_and_five)
               (snd (JsonWriter.write_all_tables Examples.default_settings
                       Examples.no_error Examples.three_and_five
                       JsonWriter.init))))) = 3 /\
  JsonWriter.total_records
    (JsonWriter.get_write_summary
       (snd (JsonWriter.write_combined_json Examples.default_settings
               Examples.no_error
               (DataTransformer.create_combined_dataset Examples.three_and_five)
               (snd (JsonWriter.write_all_tables Examples.default_settings
                       Examples.no_error Examples.three_and_five
                       JsonWriter.init))))) = 16.
Proof.
  assert (Hok : dict_ok Examples.three_and_five).
  { repeat constructor; simpl; intuition discriminate. }
  assert (Hfresh : ~ In "_combined" (dict_keys Examples.three_and_five)).
  { simpl. intuition discriminate. }
  destruct (write_summary_counts_records_twice Examples.default_settings
              Examples.no_error Examples.three_and_five Hok Hfresh
              (fun _ => eq_refl)) as [_ [_ [Hfiles Hrecords]]].
  split; [exact Hfiles|exact Hrecords].
Defined.

End Instances.
